(** * create-sf-user: a shallow embedding of the CSV user importer

    The development follows the four source files:
    - [settings.py]: the settings object and the environment name;
    - [utils/salesforce_api_client.py]: [init_client], [parse_json_body] and
      the class [SalesforceRestApiClient];
    - [functions/create_users.py]: [create_users_from_csv];
    - [main.py]: [main].

    Python code runs in a state and exception monad.  The state holds the
    outside world (network, files, console), the object store and the trace
    of observable events.  Library calls whose result depends on the outside
    world ([simple_salesforce.Salesforce], [requests.request], [open] with
    [csv.DictReader], [input], [Settings()]) are fields of an [Environment].

    Conventions.  A Python [str] is carried as the bytes of its UTF-8
    encoding, so literals, concatenation and comparison are the ones of the
    source.  A [dict] that the program only uses as a mapping (HTTP headers,
    keyword arguments, a CSV row) is a [gmap]; a [dict] whose order reaches
    the output ([json.dumps]) is an association list in insertion order. *)

From Stdlib Require Import QArith Ascii String.
From stdpp Require Import gmap strings list pretty.

Open Scope string_scope.

(** ** Python values and strings *)

(** JSON-serialisable values.  Floats are left out: none occurs in the
    program. *)
#[warnings="-register-all"]
Inductive pyval :=
| PNone
| PBool (b : bool)
| PInt (z : Z)
| PStr (s : string)
| PList (l : list pyval)
| PDict (kv : list (string * pyval)).

(** The one-character string holding a double quote. *)
Definition dquote : string := String "034"%char EmptyString.

(** The one-character string holding a backslash. *)
Definition backslash : string := String "092"%char EmptyString.

(** [str.lstrip(chars)] for a one-character [chars]. *)
Fixpoint lstrip (c : ascii) (s : string) : string :=
  match s with
  | String a s' => if Ascii.eqb a c then lstrip c s' else s
  | EmptyString => EmptyString
  end.

(** [str.lower()].  ASCII capital letters are mapped to small ones.  The
    bytes of a non-ASCII character are kept: no non-ASCII character
    lowercases to an ASCII letter of the words [main] compares the result
    with, so that comparison is the one Python makes. *)
Definition lower_ascii (a : ascii) : ascii :=
  let n := nat_of_ascii a in
  if (65 <=? n)%nat && (n <=? 90)%nat then ascii_of_nat (n + 32) else a.

Fixpoint lower (s : string) : string :=
  match s with
  | String a s' => String (lower_ascii a) (lower s')
  | EmptyString => EmptyString
  end.

(** *** Code points of a UTF-8 string

    [json.dumps] escapes by code point, so the bytes are decoded first.  A
    byte sequence that is not UTF-8 (never the encoding of a [str]) decodes
    to U+FFFD. *)
Definition cont (a : ascii) : N := N.land (N_of_ascii a) 63.

Fixpoint code_points (s : string) : list N :=
  match s with
  | EmptyString => []
  | String a s1 =>
    let b := N_of_ascii a in
    if (b <? 128)%N then b :: code_points s1
    else if (b <? 192)%N then 65533%N :: code_points s1
    else match s1 with
    | EmptyString => [65533%N]
    | String a1 s2 =>
      if (b <? 224)%N then
        (N.shiftl (N.land b 31) 6 + cont a1)%N :: code_points s2
      else match s2 with
      | EmptyString => [65533%N]
      | String a2 s3 =>
        if (b <? 240)%N then
          (N.shiftl (N.land b 15) 12 + N.shiftl (cont a1) 6 + cont a2)%N
            :: code_points s3
        else match s3 with
        | EmptyString => [65533%N]
        | String a3 s4 =>
          (N.shiftl (N.land b 7) 18 + N.shiftl (cont a1) 12
           + N.shiftl (cont a2) 6 + cont a3)%N :: code_points s4
        end
      end
    end
  end.

(** *** json.dumps with the default options *)

Definition hex_digit (n : N) : ascii :=
  if (n <? 10)%N then ascii_of_N (48 + n) else ascii_of_N (87 + n).

(** ['\\u{0:04x}'.format(n)] *)
Definition u_escape (n : N) : string :=
  backslash ++ "u"
  ++ String (hex_digit (N.land (N.shiftr n 12) 15))
      (String (hex_digit (N.land (N.shiftr n 8) 15))
        (String (hex_digit (N.land (N.shiftr n 4) 15))
          (String (hex_digit (N.land n 15)) EmptyString))).

(** The replacement function of [json.encoder.py_encode_basestring_ascii]:
    [ESCAPE_DCT] first, then printable ASCII unchanged, then a [\u] escape,
    as a surrogate pair above the basic plane. *)
Definition escape_code_point (n : N) : string :=
  if (n =? 92)%N then backslash ++ backslash
  else if (n =? 34)%N then backslash ++ dquote
  else if (n =? 8)%N then backslash ++ "b"
  else if (n =? 12)%N then backslash ++ "f"
  else if (n =? 10)%N then backslash ++ "n"
  else if (n =? 13)%N then backslash ++ "r"
  else if (n =? 9)%N then backslash ++ "t"
  else if (32 <=? n)%N && (n <=? 126)%N then String (ascii_of_N n) EmptyString
  else if (n <? 65536)%N then u_escape n
  else
    let m := (n - 65536)%N in
    u_escape (N.lor 55296 (N.land (N.shiftr m 10) 1023))
    ++ u_escape (N.lor 56320 (N.land m 1023)).

Definition encode_basestring_ascii (s : string) : string :=
  dquote ++ String.concat "" (map escape_code_point (code_points s)) ++ dquote.

(** [json.dumps(v)]: [ensure_ascii=True], separators [", "] and [": "]. *)
Fixpoint json_dumps (v : pyval) : string :=
  match v with
  | PNone => "null"
  | PBool true => "true"
  | PBool false => "false"
  | PInt z => pretty z
  | PStr s => encode_basestring_ascii s
  | PList l =>
    "[" ++ (fix items (l : list pyval) : string :=
              match l with
              | [] => ""
              | x :: l' =>
                match l' with
                | [] => json_dumps x
                | _ :: _ => json_dumps x ++ ", " ++ items l'
                end
              end) l ++ "]"
  | PDict kv =>
    "{" ++ (fix items (kv : list (string * pyval)) : string :=
              match kv with
              | [] => ""
              | (k, x) :: kv' =>
                match kv' with
                | [] => encode_basestring_ascii k ++ ": " ++ json_dumps x
                | _ :: _ =>
                  encode_basestring_ascii k ++ ": " ++ json_dumps x ++ ", "
                  ++ items kv'
                end
              end) kv ++ "}"
  end.

(** ** Exceptions *)

(** Instances of (subclasses of) [Exception] that the program meets. *)
Inductive exception :=
| KeyError (key : string)
| TypeError (msg : string)
| AttributeError (msg : string)
| RequestException (msg : string)
    (* requests.RequestException other than HTTPError: ConnectionError,
       Timeout, ... *)
| HTTPError (msg : string)
    (* requests.HTTPError, a subclass of RequestException *)
| JSONDecodeError (msg : string)
| SalesforceAuthenticationFailed (msg : string)
| OtherException (cls msg : string).

(** What a [raise] carries: an [Exception], or the [SystemExit] of
    [sys.exit], which [except Exception] does not catch. *)
Inductive base_exception :=
| Exception (e : exception)
| SystemExit (code : Z).

(** [isinstance(exc, RequestException)] *)
Definition is_RequestException (e : exception) : bool :=
  match e with
  | RequestException _ | HTTPError _ => true
  | _ => false
  end.

(** [isinstance(exc, json.JSONDecodeError)] *)
Definition is_JSONDecodeError (e : exception) : bool :=
  match e with
  | JSONDecodeError _ => true
  | _ => false
  end.

(** [str(exc)].  For a [KeyError] it is the [repr] of the key; the keys the
    program looks up are plain column names, whose [repr] is the name
    between single quotes. *)
Definition str_exception (e : exception) : string :=
  match e with
  | KeyError k => "'" ++ k ++ "'"
  | TypeError m | AttributeError m | RequestException m | HTTPError m
  | JSONDecodeError m | SalesforceAuthenticationFailed m
  | OtherException _ m => m
  end.

(** ** Requests and responses *)

(** [str(x)] for an [x] that is a [str] or [None]. *)
Definition str_opt (x : option string) : string :=
  match x with
  | Some s => s
  | None => "None"
  end.

(** The part of [requests.Response] the program can observe.  [json] is the
    outcome of [response.json()]. *)
Record Response := mkResponse {
  status_code : Z;
  reason : option string;
  url : option string;
  text : string;
  json : exception + pyval
}.

(** [repr(response)], which is also [str(response)]. *)
Definition repr_Response (r : Response) : string :=
  "<Response [" ++ pretty (status_code r) ++ "]>".

(** [starlette.status.HTTP_500_INTERNAL_SERVER_ERROR] *)
Definition HTTP_500_INTERNAL_SERVER_ERROR : Z := 500.

(** [requests.Response()] with [status_code] then set to 500: no reason, no
    url, no content, so [text] is empty and [json()] fails to decode. *)
Definition error_response : Response :=
  {| status_code := HTTP_500_INTERNAL_SERVER_ERROR;
     reason := None;
     url := None;
     text := "";
     json := inl (JSONDecodeError "Expecting value: line 1 column 1 (char 0)") |}.

(** [response.raise_for_status()] of requests: [None] when it returns, the
    [HTTPError] when it raises. *)
Definition raise_for_status (r : Response) : option exception :=
  if bool_decide (400 ≤ status_code r < 500)%Z then
    Some (HTTPError (pretty (status_code r) ++ " Client Error: "
                     ++ str_opt (reason r) ++ " for url: " ++ str_opt (url r)))
  else if bool_decide (500 ≤ status_code r < 600)%Z then
    Some (HTTPError (pretty (status_code r) ++ " Server Error: "
                     ++ str_opt (reason r) ++ " for url: " ++ str_opt (url r)))
  else None.

(** The keyword arguments [requests.request] is called with: the four that
    [send_request] names and the remaining [**kwargs]. *)
Record request := mkRequest {
  req_method : string;
  req_url : string;
  req_headers : gmap string string;
  req_timeout : Q;
  req_kwargs : gmap string pyval
}.

(** ** Observable events *)

Inductive log_level := INFO | ERROR.

Inductive event :=
| EvPrint (line : string)                      (* print(line) *)
| EvInput (prompt : string)                    (* input(prompt) *)
| EvLog (level : log_level) (msg : string) (extra : option request)
| EvLogin (username password security_token domain : string)
| EvOpen (path : string)                       (* open(path) *)
| EvRequest (r : request).                     (* requests.request(...) *)

(** The HTTP requests of a trace, in order. *)
Definition requests_of (t : list event) : list request :=
  omap (λ ev, match ev with EvRequest r => Some r | _ => None end) t.

(** The printed lines of a trace, in order. *)
Definition prints_of (t : list event) : list string :=
  omap (λ ev, match ev with EvPrint l => Some l | _ => None end) t.

(** ** settings.py *)

Record Settings := mkSettings {
  SF_USER : string;
  SF_PASSWORD : string;
  SF_DOMAIN : string;
  SF_TOKEN : string;
  SF_API_BASE_URL : string
}.

(** The part of a [simple_salesforce.Salesforce] instance the program
    reads: the headers of the authenticated session. *)
Record Salesforce := mkSalesforce {
  headers : gmap string string
}.

(** ** The outside world *)

(** A CSV cell as [csv.DictReader] yields it: a [str], or [None] for a
    column the line is too short to fill. *)
Abbreviation cell := (option string).

(** What the libraries answer.  Each call takes the state of the world and
    gives the next one, so an answer may depend on all earlier calls. *)
Record Environment := mkEnvironment {
  World : Type;
  (** [os.getenv("ENV")] when [settings.py] is imported *)
  ENV : option string;
  (** the module-level [settings] of [salesforce_api_client.py] *)
  settings : Settings;
  (** [Settings()] in [main] *)
  new_Settings : World → (exception + Settings) * World;
  (** [Salesforce(username, password, security_token, domain)] *)
  new_Salesforce :
    string → string → string → string → World →
    (exception + Salesforce) * World;
  (** [requests.request] called with the keyword arguments [r] *)
  requests_request : request → World → (exception + Response) * World;
  (** [open(path, encoding='utf-8')] and the iteration of
      [csv.DictReader]: the rows it yields and, if the file cannot be opened
      or read to its end, the exception that stops the iteration *)
  DictReader :
    string → World → (list (gmap string cell) * option exception) * World;
  (** [input(prompt)] *)
  console_input : string → World → (exception + string) * World
}.

(** ** The object store *)

(** A reference to a Python object: its index in the store. *)
Definition loc : Type := nat.

(** The mutable objects of the program: an instance of
    [SalesforceRestApiClient] with its two attributes (unset until
    [__init__] assigns them), and a [dict] of headers. *)
Inductive object :=
| Instance (self_url : option string) (self_base_headers : option loc)
| Dict (d : gmap string string).

(** ** The monad of Python code *)

Inductive result (A : Type) :=
| Ok (a : A)
| Raise (e : base_exception).
Arguments Ok {A} a.
Arguments Raise {A} e.

Declare Scope py_scope.
Delimit Scope py_scope with py.

Section Program.

Context (E : Environment).

Record state := mkState {
  world : World E;
  heap : list object;
  trace : list event
}.

Definition M (A : Type) : Type := state → result A * state.

Definition ret {A} (a : A) : M A := λ s, (Ok a, s).

Definition raise {A} (e : base_exception) : M A := λ s, (Raise e, s).

Definition bind {A B} (c : M A) (k : A → M B) : M B :=
  λ s, match c s with
       | (Ok a, s') => k a s'
       | (Raise e, s') => (Raise e, s')
       end.

Notation "x <~ c ;; k" := (bind c (λ x, k))
  (at level 100, c at next level, right associativity) : py_scope.
Notation "c ;; k" := (bind c (λ _, k))
  (at level 100, right associativity) : py_scope.
Local Open Scope py_scope.

(** [try: body except Exception as exc: handler(exc)].  A [SystemExit]
    passes through. *)
Definition try_except {A} (body : M A) (handler : exception → M A) : M A :=
  λ s, match body s with
       | (Raise (Exception exc), s') => handler exc s'
       | r => r
       end.

(** [for x in l: body(x)] *)
Fixpoint for_each {A} (l : list A) (body : A → M unit) : M unit :=
  match l with
  | [] => ret tt
  | x :: l' => body x ;; for_each l' body
  end.

Definition emit (ev : event) : M unit :=
  λ s, (Ok tt, mkState (world s) (heap s) (trace s ++ [ev])).

(** A library call: the event is recorded, the world answers. *)
Definition call {A} (ev : event) (f : World E → (exception + A) * World E)
  : M A :=
  λ s, match f (world s) with
       | (inr a, w) => (Ok a, mkState w (heap s) (trace s ++ [ev]))
       | (inl exc, w) =>
         (Raise (Exception exc), mkState w (heap s) (trace s ++ [ev]))
       end.

Definition print (line : string) : M unit := emit (EvPrint line).

Definition logger_info (msg : string) (extra : request) : M unit :=
  emit (EvLog INFO msg (Some extra)).

Definition logger_error (msg : string) : M unit :=
  emit (EvLog ERROR msg None).

(** [sys.exit(code)] *)
Definition sys_exit {A} (code : Z) : M A := raise (SystemExit code).

(** A new object, stored after all the others. *)
Definition alloc (o : object) : M loc :=
  λ s, (Ok (length (heap s)), mkState (world s) (heap s ++ [o]) (trace s)).

Definition store (l : loc) (o : object) : M unit :=
  λ s, (Ok tt, mkState (world s) (<[l := o]> (heap s)) (trace s)).

Definition no_attribute {A} (name : string) : M A :=
  raise (Exception (AttributeError
    ("'SalesforceRestApiClient' object has no attribute '" ++ name ++ "'"))).

(** [self.url] *)
Definition getattr_url (self : loc) : M string :=
  λ s, match heap s !! self with
       | Some (Instance (Some u) _) => ret u s
       | _ => no_attribute "url" s
       end.

(** [self.base_headers] *)
Definition getattr_base_headers (self : loc) : M loc :=
  λ s, match heap s !! self with
       | Some (Instance _ (Some b)) => ret b s
       | _ => no_attribute "base_headers" s
       end.

(** [self.url = u] *)
Definition setattr_url (self : loc) (u : string) : M unit :=
  λ s, match heap s !! self with
       | Some (Instance _ b) => store self (Instance (Some u) b) s
       | _ => no_attribute "url" s
       end.

(** [self.base_headers = b] *)
Definition setattr_base_headers (self : loc) (b : loc) : M unit :=
  λ s, match heap s !! self with
       | Some (Instance u _) => store self (Instance u (Some b)) s
       | _ => no_attribute "base_headers" s
       end.

(** The entries of the [dict] at [l]. *)
Definition dict_items (l : loc) : M (gmap string string) :=
  λ s, match heap s !! l with
       | Some (Dict d) => ret d s
       | _ => raise (Exception (TypeError "object is not a mapping")) s
       end.

(** [d.update(other)] on the [dict] at [l]: the entries of [other] win. *)
Definition dict_update (l : loc) (other : gmap string string) : M unit :=
  d <~ dict_items l ;;
  store l (Dict (other ∪ d)).

(** ** settings.py *)

(** [Settings.Config.env = os.getenv("ENV", "dev")] *)
Definition Config_env : string := default "dev" (ENV E).

(** ** utils/salesforce_api_client.py *)

(** Seconds. *)
Definition DEFAULT_TIMEOUT_SECONDS : Q := 30.

(** [init_client()]: the login to Salesforce with the credentials of the
    settings, which raises when it fails. *)
Definition init_client : M Salesforce :=
  let st := settings E in
  call (EvLogin (SF_USER st) (SF_PASSWORD st) (SF_TOKEN st) (SF_DOMAIN st))
       (new_Salesforce E
          (SF_USER st) (SF_PASSWORD st) (SF_TOKEN st) (SF_DOMAIN st)).

(** [response.json()] *)
Definition Response_json (response : Response) : exception + pyval :=
  json response.

Definition parse_json_body (response : Response) : exception + pyval :=
  match Response_json response with
  | inr body => inr body
  | inl exc =>
    if is_JSONDecodeError exc then
      inr (PDict [("message", PStr "response.json() failed");
                  ("response", PStr (text response))])
    else inl exc
  end.

(** [SalesforceRestApiClient.__init__(self, path, additional_headers)] *)
Definition __init__ (self : loc) (path : string)
    (additional_headers : option (gmap string string)) : M unit :=
  setattr_url self (SF_API_BASE_URL (settings E) ++ "/" ++ lstrip "/" path) ;;
  sf <~ init_client ;;
  base_headers <~ alloc (Dict (headers sf ∪
      {[ "Content-Type" := "application/json"; "Accept" := "*/*" ]})) ;;
  setattr_base_headers self base_headers ;;
  match additional_headers with
  | Some extra =>
    if bool_decide (extra = ∅) then ret tt
    else b <~ getattr_base_headers self ;; dict_update b extra
  | None => ret tt
  end.

(** [SalesforceRestApiClient(path=path, additional_headers=...)]: a new
    instance, initialised. *)
Definition SalesforceRestApiClient (path : string)
    (additional_headers : option (gmap string string)) : M loc :=
  self <~ alloc (Instance None None) ;;
  __init__ self path additional_headers ;;
  ret self.

(** The first of the keywords written out at a call that [**kwargs] gives a
    second time. *)
Definition repeated_keyword (names : list string) (kwargs : gmap string pyval)
  : option string :=
  List.find (λ k, bool_decide (is_Some (kwargs !! k))) names.

(** The call
    [requests.request(method=.., url=.., headers=.., timeout=.., **kwargs)]:
    Python raises [TypeError] at the call when [kwargs] repeats one of the
    four keywords; otherwise the request goes out. *)
Definition call_requests_request (method url : string)
    (headers : gmap string string) (timeout : Q)
    (kwargs : gmap string pyval) : M Response :=
  match repeated_keyword ["method"; "url"; "headers"; "timeout"] kwargs with
  | Some k =>
    raise (Exception (TypeError
      ("requests.api.request() got multiple values for keyword argument '"
       ++ k ++ "'")))
  | None =>
    let r := mkRequest method url headers timeout kwargs in
    call (EvRequest r) (requests_request E r)
  end.

(** [SalesforceRestApiClient.send_request(self, method, headers, timeout,
    **kwargs)].  [headers] is [None] or a [dict]; [kwargs] holds the keyword
    arguments that are left once Python has bound the named parameters. *)
Definition send_request (self : loc) (method : string)
    (headers : option (gmap string string)) (timeout : Q)
    (kwargs : gmap string pyval) : M Response :=
  base_headers <~ getattr_base_headers self ;;
  base <~ dict_items base_headers ;;
  merged <~ alloc (Dict (default ∅ headers ∪ base)) ;;
  merged_headers <~ dict_items merged ;;
  url <~ getattr_url self ;;
  logger_info "Salesforce REST API request"
    (mkRequest method url merged_headers timeout kwargs) ;;
  try_except
    (url <~ getattr_url self ;;
     response <~ call_requests_request method url merged_headers timeout
                   kwargs ;;
     match raise_for_status response with
     | Some exc => raise (Exception exc)
     | None => ret response
     end)
    (λ exc,
       if is_RequestException exc then
         url <~ getattr_url self ;;
         logger_error ("Error occurred for Salesforce REST API request to "
                       ++ url ++ ": " ++ str_exception exc) ;;
         ret error_response
       else
         url <~ getattr_url self ;;
         logger_error
           ("Unexpected error occurred for Salesforce REST API request to "
            ++ url ++ ": " ++ str_exception exc) ;;
         ret error_response).

(** The call [self.send_request(method, **kwargs)] of [get], [post] and
    [patch]: [headers] and [timeout] are bound to the named parameters
    ([timeout] to its default when absent), and a [method] among the
    keywords is a [TypeError] at the call. *)
Definition call_send_request (self : loc) (method : string)
    (headers : option (gmap string string)) (timeout : option Q)
    (kwargs : gmap string pyval) : M Response :=
  if bool_decide (is_Some (kwargs !! "method")) then
    raise (Exception (TypeError
      ("SalesforceRestApiClient.send_request() got multiple values for "
       ++ "argument 'method'")))
  else
    send_request self method headers
      (default DEFAULT_TIMEOUT_SECONDS timeout) kwargs.

Definition get (self : loc) (headers : option (gmap string string))
    (timeout : option Q) (kwargs : gmap string pyval) : M Response :=
  call_send_request self "GET" headers timeout kwargs.

Definition post (self : loc) (headers : option (gmap string string))
    (timeout : option Q) (kwargs : gmap string pyval) : M Response :=
  call_send_request self "POST" headers timeout kwargs.

Definition patch (self : loc) (headers : option (gmap string string))
    (timeout : option Q) (kwargs : gmap string pyval) : M Response :=
  call_send_request self "PATCH" headers timeout kwargs.

(** [len(request_data)] counts characters; [json.dumps] gives ASCII only,
    where characters and bytes agree. *)
Definition composite_request (self : loc) (composite_data : pyval)
  : M Response :=
  let request_data := json_dumps composite_data in
  let composite_url :=
    SF_API_BASE_URL (settings E) ++ "/services/data/v52.0/composite" in
  post self
    (Some {[ "Content-Length" := pretty (String.length request_data) ]})
    None
    {[ "url" := PStr composite_url; "data" := PStr request_data ]}.

(** ** functions/create_users.py *)

(** The columns of the user record, in the order of the dict display. *)
Definition required_columns : list string :=
  ["FirstName"; "LastName"; "Email"; "Username"; "Alias"; "TimeZoneSidKey";
   "LocaleSidKey"; "EmailEncodingKey"; "LanguageLocaleKey"; "ProfileId"].

(** [row[key]] *)
Definition subscript (row : gmap string cell) (key : string) : M cell :=
  match row !! key with
  | Some v => ret v
  | None => raise (Exception (KeyError key))
  end.

(** [row.get(key, default)] *)
Definition row_get (row : gmap string cell) (key : string) (dflt : cell)
  : cell :=
  default dflt (row !! key).

Definition cell_value (c : cell) : pyval :=
  match c with
  | Some s => PStr s
  | None => PNone
  end.

(** The dict display [{k: row[k], ...}] for the keys [keys], evaluated from
    left to right. *)
Fixpoint dict_display (row : gmap string cell) (keys : list string)
  : M (list (string * pyval)) :=
  match keys with
  | [] => ret []
  | k :: keys' =>
    v <~ subscript row k ;;
    rest <~ dict_display row keys' ;;
    ret ((k, cell_value v) :: rest)
  end.

(** The body of the [for row in reader] loop. *)
Definition create_user (sf : loc) (row : gmap string cell) : M unit :=
  try_except
    (user_record <~ dict_display row required_columns ;;
     result <~ post sf None None
                 {[ "data" := PStr (json_dumps (PDict user_record)) ]} ;;
     username <~ subscript row "Username" ;;
     print ("Successfully created user: " ++ str_opt username ++ " -> "
            ++ repr_Response result))
    (λ e,
       print ("Failed to create user: "
              ++ str_opt (row_get row "Username" (Some "No Username"))
              ++ " -> " ++ str_exception e)).

(** [open(csv_file_path, encoding='utf-8')] and [csv.DictReader(f)]. *)
Definition open_DictReader (csv_file_path : string)
  : M (list (gmap string cell) * option exception) :=
  λ s, match DictReader E csv_file_path (world s) with
       | (reader, w) =>
         (Ok reader, mkState w (heap s) (trace s ++ [EvOpen csv_file_path]))
       end.

Definition create_users_from_csv (csv_file_path : string) : M unit :=
  sf <~ SalesforceRestApiClient "/services/data/v50.0/sobjects/User" None ;;
  reader <~ open_DictReader csv_file_path ;;
  for_each (fst reader) (create_user sf) ;;
  match snd reader with
  | Some exc => raise (Exception exc)
  | None => ret tt
  end.

(** ** main.py *)

(** [Settings()] *)
Definition Settings_ : M Settings :=
  λ s, match new_Settings E (world s) with
       | (inr st, w) => (Ok st, mkState w (heap s) (trace s))
       | (inl exc, w) => (Raise (Exception exc), mkState w (heap s) (trace s))
       end.

Definition confirm_prompt : string :=
  "⚠️ 本番環境で実行します。よろしいですか？ (yes/no): ".

Definition main : M unit :=
  Settings_ ;;
  let env_name := Config_env in
  print ("実行環境: " ++ env_name) ;;
  (if String.eqb env_name "prod" then
     confirm <~ call (EvInput confirm_prompt)
                  (console_input E confirm_prompt) ;;
     if negb (bool_decide (lower confirm ∈ ["yes"; "y"])) then
       print "====== 処理中断 ====== " ;;
       sys_exit 1
     else ret tt
   else ret tt) ;;
  print "====== 処理開始 ======" ;;
  create_users_from_csv "src/files/ユーザー作成シート.csv".

End Program.

Arguments mkState {E} _ _ _.
Arguments world {E} _.
Arguments heap {E} _.
Arguments trace {E} _.

(** ** Notions used to state the properties *)

Section Notions.

Context (E : Environment).

(** The client at [self] has been constructed: its [url] is [u], its
    [base_headers] is the dict stored at [b], and that dict has the entries
    [d]. *)
Definition client_at (s : state E) (self : loc) (u : string) (b : loc)
    (d : gmap string string) : Prop :=
  heap s !! self = Some (Instance (Some u) (Some b))
  ∧ heap s !! b = Some (Dict d).

(** The line [send_request] logs when an exception reaches a handler. *)
Definition failure_log (u : string) (exc : exception) : event :=
  EvLog ERROR
    ((if is_RequestException exc
      then "Error occurred for Salesforce REST API request to "
      else "Unexpected error occurred for Salesforce REST API request to ")
     ++ u ++ ": " ++ str_exception exc) None.

(** What the [try] statement of [send_request] comes to for the request
    [req] of a client with url [u] in the world [w]: the response returned,
    the next world and the events. *)
Definition attempt (u : string) (req : request) (w : World E)
  : Response * World E * list event :=
  match repeated_keyword ["method"; "url"; "headers"; "timeout"]
          (req_kwargs req) with
  | Some k =>
    (error_response, w,
     [failure_log u (TypeError
        ("requests.api.request() got multiple values for keyword argument '"
         ++ k ++ "'"))])
  | None =>
    match requests_request E req w with
    | (inr r, w') =>
      match raise_for_status r with
      | None => (r, w', [EvRequest req])
      | Some exc => (error_response, w', [EvRequest req; failure_log u exc])
      end
    | (inl exc, w') => (error_response, w', [EvRequest req; failure_log u exc])
    end
  end.

(** The url and the base headers [__init__] gives a client for [path] when
    the login answers the headers [sf_headers] and no additional headers are
    passed. *)
Definition client_url (path : string) : string :=
  SF_API_BASE_URL (settings E) ++ "/" ++ lstrip "/" path.

Definition client_headers (sf_headers : gmap string string)
  : gmap string string :=
  sf_headers ∪ {[ "Content-Type" := "application/json"; "Accept" := "*/*" ]}.

(** The user record of a row that has every required column. *)
Definition user_record (row : gmap string cell) : list (string * pyval) :=
  map (λ k, (k, cell_value (default None (row !! k)))) required_columns.

(** The create call for such a row: the keyword arguments
    [requests.request] receives. *)
Definition create_request (sf_headers : gmap string string)
    (row : gmap string cell) : request :=
  mkRequest "POST" (client_url "/services/data/v50.0/sobjects/User")
    (client_headers sf_headers) DEFAULT_TIMEOUT_SECONDS
    {[ "data" := PStr (json_dumps (PDict (user_record row))) ]}.

(** A row has every required column. *)
Definition complete (row : gmap string cell) : Prop :=
  Forall (λ k, is_Some (row !! k)) required_columns.

(** The login of [init_client]: the call and its event. *)
Definition login (w : World E) : (exception + Salesforce) * World E :=
  let st := settings E in
  new_Salesforce E (SF_USER st) (SF_PASSWORD st) (SF_TOKEN st)
    (SF_DOMAIN st) w.

Definition login_event : event :=
  let st := settings E in
  EvLogin (SF_USER st) (SF_PASSWORD st) (SF_TOKEN st) (SF_DOMAIN st).

(** The file [main] imports. *)
Definition users_csv : string := "src/files/ユーザー作成シート.csv".

End Notions.

(** ** A small world to run the program in *)

Definition example_settings : Settings :=
  mkSettings "admin@example.com" "secret" "login" "token"
    "https://example.my.salesforce.com".

(** A successful login. *)
Definition example_session : Salesforce :=
  mkSalesforce {[ "Authorization" := "Bearer 00Dxx0000001gPF" ]}.

(** An answer of the API with the given status and an empty body. *)
Definition answer (status : Z) (r : request) : Response :=
  mkResponse status None (Some (req_url r)) ""
    (inl (JSONDecodeError "Expecting value: line 1 column 1 (char 0)")).

(** A world that counts the requests made: the [n]-th request is answered
    with the [n]-th status of [statuses], and the connection is refused once
    the list is used up.  The login gives [auth], the console answers
    [confirm] and every CSV file holds [rows]. *)
Definition example_env (env : option string)
    (auth : exception + Salesforce) (confirm : string)
    (rows : list (gmap string cell)) (statuses : list Z) : Environment :=
  {| World := nat;
     ENV := env;
     settings := example_settings;
     new_Settings := λ n, (inr example_settings, n);
     new_Salesforce := λ _ _ _ _ n, (auth, n);
     requests_request := λ r n,
       (match statuses !! n with
        | Some status => inr (answer status r)
        | None => inl (RequestException "Connection refused")
        end, S n);
     DictReader := λ _ n, ((rows, None), n);
     console_input := λ _ n, (inr confirm, n) |}.

(** A row with every required column, for the user [username]. *)
Definition example_row (username : string) : gmap string cell :=
  list_to_map
    (map (λ k, (k, Some (if String.eqb k "Username" then username else "x")))
       required_columns).

(** The state the program starts in: nothing stored, nothing observed. *)
Definition initial (E : Environment) (w : World E) : state E :=
  mkState w [] [].

(** The state once a client for the User resource has been constructed. *)
Definition constructed (E : Environment) (w : World E) : state E :=
  (SalesforceRestApiClient E "/services/data/v50.0/sobjects/User" None
     (initial E w)).2.


(** Two complete rows; the API refuses the first user and creates the
    second. *)
Definition world_api_error : Environment :=
  example_env None (inr example_session) ""
    [example_row "alice@example.com"; example_row "bob@example.com"]
    [400%Z; 201%Z].

(** One complete row; the API answers 304. *)
Definition world_not_modified : Environment :=
  example_env None (inr example_session) ""
    [example_row "alice@example.com"] [304%Z].

(** A CSV file whose header has no [Email] column: no row has one. *)
Definition world_missing_column : Environment :=
  example_env None (inr example_session) ""
    [delete "Email" (example_row "alice@example.com");
     delete "Email" (example_row "bob@example.com");
     delete "Email" (example_row "carol@example.com")]
    [201%Z; 201%Z; 201%Z].

(** The login is refused. *)
Definition world_login_refused : Environment :=
  example_env None
    (inl (SalesforceAuthenticationFailed "INVALID_LOGIN"))
    "" [example_row "alice@example.com"] [201%Z].

(** A production run that the operator declines. *)
Definition world_prod_declined : Environment :=
  example_env (Some "prod") (inr example_session) "no"
    [example_row "alice@example.com"] [201%Z].

(** An answer that is a web page, not JSON. *)
Definition html_response : Response :=
  mkResponse 200 (Some "OK") (Some "https://example.my.salesforce.com/")
    "<html></html>"
    (inl (JSONDecodeError "Expecting value: line 1 column 1 (char 0)")).

(** The url and base headers of the example client. *)
Definition example_url : string :=
  "https://example.my.salesforce.com/services/data/v50.0/sobjects/User".

Definition example_base_headers : gmap string string :=
  client_headers (headers example_session).


(** ** Further notions *)

(** The events the loop of [create_users_from_csv] can add for a row: a
    printed line, a log line, a request. *)
Definition row_event (ev : event) : Prop :=
  match ev with
  | EvPrint _ | EvLog _ _ _ | EvRequest _ => True
  | EvInput _ | EvLogin _ _ _ _ | EvOpen _ => False
  end.

(** The success line of [create_user] for a row and the response [r]. *)
Definition success_line (row : gmap string cell) (r : Response) : string :=
  "Successfully created user: " ++ str_opt (default None (row !! "Username"))
  ++ " -> " ++ repr_Response r.

(** The answers that let a production run go on. *)
Definition accepted_answers : list string :=
  ["y"; "Y"; "yes"; "yeS"; "yEs"; "yES"; "Yes"; "YeS"; "YEs"; "YES"].

(** A character that [json.dumps] leaves as it is inside a string:
    printable ASCII other than the double quote and the backslash. *)
Definition plain_char (a : ascii) : Prop :=
  (32 ≤ nat_of_ascii a ≤ 126)%nat
  ∧ nat_of_ascii a ≠ 34%nat ∧ nat_of_ascii a ≠ 92%nat.

Fixpoint plain (s : string) : Prop :=
  match s with
  | EmptyString => True
  | String a s' => plain_char a ∧ plain s'
  end.

(** A string of printable ASCII characters. *)
Fixpoint printable (s : string) : Prop :=
  match s with
  | EmptyString => True
  | String a s' => (32 ≤ nat_of_ascii a ≤ 126)%nat ∧ printable s'
  end.


(** ** More example worlds *)

(** A world like [example_env] in which the settings, the console and the
    reader may fail too. *)
Definition example_env_with (env : option string)
    (loaded : exception + Settings) (auth : exception + Salesforce)
    (console : exception + string)
    (reader : list (gmap string cell) * option exception)
    (statuses : list Z) : Environment :=
  {| World := nat;
     ENV := env;
     settings := example_settings;
     new_Settings := λ n, (loaded, n);
     new_Salesforce := λ _ _ _ _ n, (auth, n);
     requests_request := λ r n,
       (match statuses !! n with
        | Some status => inr (answer status r)
        | None => inl (RequestException "Connection refused")
        end, S n);
     DictReader := λ _ n, (reader, n);
     console_input := λ _ n, (console, n) |}.

(** A setting is missing. *)
Definition world_settings_error : Environment :=
  example_env_with None
    (inl (OtherException "ValidationError" "SF_TOKEN: Field required"))
    (inr example_session) (inr "") ([example_row "alice@example.com"], None)
    [201%Z].

(** A production run with standard input closed. *)
Definition world_console_closed : Environment :=
  example_env_with (Some "prod") (inr example_settings)
    (inr example_session)
    (inl (OtherException "EOFError" "EOF when reading a line"))
    ([example_row "alice@example.com"], None) [201%Z].

(** The CSV file does not exist. *)
Definition world_no_file : Environment :=
  example_env_with None (inr example_settings) (inr example_session)
    (inr "")
    ([], Some (OtherException "FileNotFoundError"
                 "[Errno 2] No such file or directory"))
    [201%Z].

(** The CSV file has a header and no row. *)
Definition world_empty_file : Environment :=
  example_env None (inr example_session) "" [] [].

(** An answer whose [json()] fails for another reason than its content. *)
Definition consumed_response : Response :=
  mkResponse 200 (Some "OK") (Some "https://example.my.salesforce.com/")
    ""
    (inl (OtherException "RuntimeError"
            "The content for this response was already consumed")).


(** ** composite_request on any Python object *)

(** What a caller may hand to [composite_request]: a value [json.dumps]
    can serialise, or an object it refuses with the exception [exc] (a
    [TypeError] for a set or a date inside the data, a [ValueError] for a
    circular reference). *)
Inductive pyobject :=
| Serialisable (v : pyval)
| Unserialisable (exc : exception).

(** [json.dumps(o)], with its error. *)
Definition json_dumps_object (o : pyobject) : exception + string :=
  match o with
  | Serialisable v => inr (json_dumps v)
  | Unserialisable exc => inl exc
  end.

(** [composite_request] with the error path of its first statement:
    [json.dumps(composite_data)] stands outside any [try], so what it
    raises leaves the method; otherwise the method goes on as
    [composite_request] does. *)
Definition composite_request_object (E : Environment) (self : loc)
    (composite_data : pyobject) : M E Response :=
  match json_dumps_object composite_data with
  | inl exc => raise E (Exception exc)
  | inr request_data =>
    let composite_url :=
      SF_API_BASE_URL (settings E) ++ "/services/data/v52.0/composite" in
    post E self
      (Some {[ "Content-Length" := pretty (String.length request_data) ]})
      None
      {[ "url" := PStr composite_url; "data" := PStr request_data ]}
  end.


(** * Properties *)

Section Properties.

Context (E : Environment).

Implicit Types (s : state E) (self sf b : loc) (u : string)
  (d : gmap string string) (kwargs : gmap string pyval)
  (row : gmap string cell).

(** ** Running the monad *)

Lemma bind_Ok {A B} (c : M E A) (k : A → M E B) s a s' :
  c s = (Ok a, s') → bind E c k s = k a s'.
Proof. intros H. unfold bind. by rewrite H. Qed.

Lemma bind_Raise {A B} (c : M E A) (k : A → M E B) s e s' :
  c s = (Raise e, s') → bind E c k s = (Raise e, s').
Proof. intros H. unfold bind. by rewrite H. Qed.

Lemma try_except_Ok {A} (body : M E A) handler s a s' :
  body s = (Ok a, s') → try_except E body handler s = (Ok a, s').
Proof. intros H. unfold try_except. by rewrite H. Qed.

Lemma try_except_Exception {A} (body : M E A) handler s exc s' :
  body s = (Raise (Exception exc), s') →
  try_except E body handler s = handler exc s'.
Proof. intros H. unfold try_except. by rewrite H. Qed.

Lemma lookup_alloc (h : list object) (l : loc) (o o' : object) :
  h !! l = Some o → (h ++ [o'])%list !! l = Some o.
Proof. apply lookup_app_l_Some. Qed.

Lemma lookup_new (h : list object) (o : object) :
  (h ++ [o])%list !! length h = Some o.
Proof. by apply list_lookup_middle. Qed.

Lemma getattr_url_run s self u ob :
  heap s !! self = Some (Instance (Some u) ob) →
  getattr_url E self s = (Ok u, s).
Proof. intros H. unfold getattr_url. by rewrite H. Qed.

Lemma getattr_base_headers_run s self ou b :
  heap s !! self = Some (Instance ou (Some b)) →
  getattr_base_headers E self s = (Ok b, s).
Proof. intros H. unfold getattr_base_headers. by rewrite H. Qed.

Lemma dict_items_run s b d :
  heap s !! b = Some (Dict d) → dict_items E b s = (Ok d, s).
Proof. intros H. unfold dict_items. by rewrite H. Qed.

Ltac read_url :=
  erewrite bind_Ok by (eapply getattr_url_run; by apply lookup_alloc).

Ltac log_failure :=
  read_url; unfold bind, logger_error, emit, ret; simpl;
  by rewrite <- !app_assoc.

(** ** send_request, step by step *)

Lemma send_request_run s self u b d method headers timeout kwargs :
  client_at E s self u b d →
  let hd := default ∅ headers ∪ d in
  let req := mkRequest method u hd timeout kwargs in
  let a := attempt E u req (world s) in
  send_request E self method headers timeout kwargs s =
  (Ok a.1.1,
   mkState a.1.2 (heap s ++ [Dict hd])
     (trace s ++ EvLog INFO "Salesforce REST API request" (Some req) :: a.2)).
Proof.
  intros [Hself Hb]. cbv zeta. unfold send_request.
  erewrite bind_Ok by (by eapply getattr_base_headers_run).
  erewrite bind_Ok by (by eapply dict_items_run).
  erewrite bind_Ok by reflexivity.
  erewrite bind_Ok by (eapply dict_items_run; apply lookup_new).
  read_url.
  erewrite bind_Ok by reflexivity.
  unfold attempt, call_requests_request. simpl req_kwargs.
  destruct (repeated_keyword _ kwargs) as [k|].
  - erewrite try_except_Exception; cycle 1.
    { read_url. by erewrite bind_Raise by reflexivity. }
    simpl. log_failure.
  - destruct (requests_request E _ (world s)) as [[exc|r] w] eqn:Hw.
    + erewrite try_except_Exception; cycle 1.
      { read_url. erewrite bind_Raise; [done|]. unfold call. simpl.
        by rewrite Hw. }
      unfold failure_log. destruct (is_RequestException exc); log_failure.
    + destruct (raise_for_status r) as [exc|] eqn:Hr.
      * erewrite try_except_Exception; cycle 1.
        { read_url. erewrite bind_Ok; [|unfold call; simpl; by rewrite Hw].
          by rewrite Hr. }
        unfold failure_log. destruct (is_RequestException exc); log_failure.
      * erewrite try_except_Ok; cycle 1.
        { read_url. erewrite bind_Ok; [|unfold call; simpl; by rewrite Hw].
          by rewrite Hr. }
        by rewrite <- !app_assoc.
Qed.

Lemma send_request_client_at s self u b d method headers timeout kwargs :
  client_at E s self u b d →
  client_at E (snd (send_request E self method headers timeout kwargs s))
    self u b d.
Proof.
  intros Hc. rewrite (send_request_run _ _ _ _ _ _ _ _ _ Hc).
  destruct Hc as [Hself Hb]. split; simpl; by apply lookup_alloc.
Qed.

Lemma call_send_request_client_at s self u b d method headers timeout kwargs :
  client_at E s self u b d →
  client_at E (snd (call_send_request E self method headers timeout kwargs s))
    self u b d.
Proof.
  intros Hc. unfold call_send_request. case_bool_decide; [done|].
  by apply send_request_client_at.
Qed.

Lemma raise_for_status_None r :
  raise_for_status r = None ↔ ¬ (400 ≤ status_code r < 600)%Z.
Proof.
  unfold raise_for_status. repeat case_bool_decide; split; (done || lia).
Qed.

(** C3: a constructed client's [send_request] returns a response whatever
    its arguments, never an exception.  When the transport raises, or
    answers with a status from 400 to 599, the response returned is the
    synthetic one, whose status code is 500; when the request goes out and
    the answer has a 2xx status, that answer is returned as it is. *)
Theorem send_request_never_raises s self u b d method headers timeout kwargs :
  client_at E s self u b d →
  let req := mkRequest method u (default ∅ headers ∪ d) timeout kwargs in
  let run := send_request E self method headers timeout kwargs s in
  (∃ r, fst run = Ok r)
  ∧ (∀ exc w, requests_request E req (world s) = (inl exc, w) →
       fst run = Ok error_response)
  ∧ (∀ resp w, requests_request E req (world s) = (inr resp, w) →
       (400 ≤ status_code resp < 600)%Z → fst run = Ok error_response)
  ∧ (∀ resp w, requests_request E req (world s) = (inr resp, w) →
       repeated_keyword ["method"; "url"; "headers"; "timeout"] kwargs = None →
       (200 ≤ status_code resp < 300)%Z → fst run = Ok resp)
  ∧ status_code error_response = 500%Z.
Proof.
  intros Hc req run. subst run.
  rewrite (send_request_run _ _ _ _ _ _ _ _ _ Hc). fold req.
  unfold attempt. simpl req_kwargs.
  split; [|split; [|split; [|split]]].
  - destruct (attempt E u req (world s)) as [[r w] evs] eqn:Ha.
    unfold attempt in Ha. simpl req_kwargs in Ha. rewrite Ha. by exists r.
  - intros exc w Hw. rewrite Hw. by destruct (repeated_keyword _ _).
  - intros resp w Hw Hst. rewrite Hw.
    destruct (repeated_keyword _ _); [done|].
    destruct (raise_for_status resp) eqn:Hr; [done|].
    apply raise_for_status_None in Hr. lia.
  - intros resp w Hw Hk Hst. rewrite Hw, Hk.
    destruct (raise_for_status resp) eqn:Hr; [|done].
    assert (raise_for_status resp = None) as Hn
      by (apply raise_for_status_None; lia).
    congruence.
  - reflexivity.
Qed.

(** C10: when the request goes out and the transport answers with a
    response, [send_request] replaces it by the synthetic response only if
    its status code is 400 or more; an answer with a status code below 400,
    304 for one, is returned as it is. *)
Theorem send_request_below_400 s self u b d method headers timeout kwargs
    resp w :
  client_at E s self u b d →
  repeated_keyword ["method"; "url"; "headers"; "timeout"] kwargs = None →
  requests_request E
    (mkRequest method u (default ∅ headers ∪ d) timeout kwargs) (world s)
  = (inr resp, w) →
  let run := send_request E self method headers timeout kwargs s in
  ((status_code resp < 400)%Z → fst run = Ok resp)
  ∧ (fst run = Ok resp
     ∨ fst run = Ok error_response ∧ (400 ≤ status_code resp)%Z).
Proof.
  intros Hc Hk Hw run. subst run.
  rewrite (send_request_run _ _ _ _ _ _ _ _ _ Hc).
  unfold attempt. simpl req_kwargs. rewrite Hk, Hw.
  destruct (raise_for_status resp) eqn:Hr.
  - assert (400 ≤ status_code resp < 600)%Z.
    { destruct (decide (400 ≤ status_code resp < 600)%Z) as [|Hn]; [done|].
      apply raise_for_status_None in Hn. congruence. }
    split; [lia|]. right. simpl. split; [done|lia].
  - split; [done|]. by left.
Qed.

(** C9: no method of a constructed client changes the client: after
    [send_request], [get], [post], [patch] or [composite_request] the
    instance has the same [url], the same [base_headers] dict, and that
    dict has the same entries. *)
Theorem client_read_only s self u b d :
  client_at E s self u b d →
  (∀ method headers timeout kwargs,
     client_at E (snd (send_request E self method headers timeout kwargs s))
       self u b d)
  ∧ (∀ headers timeout kwargs,
       client_at E (snd (get E self headers timeout kwargs s)) self u b d)
  ∧ (∀ headers timeout kwargs,
       client_at E (snd (post E self headers timeout kwargs s)) self u b d)
  ∧ (∀ headers timeout kwargs,
       client_at E (snd (patch E self headers timeout kwargs s)) self u b d)
  ∧ (∀ composite_data,
       client_at E (snd (composite_request E self composite_data s))
         self u b d).
Proof.
  intros Hc. split; [|split; [|split; [|split]]]; intros.
  - by apply send_request_client_at.
  - by apply call_send_request_client_at.
  - by apply call_send_request_client_at.
  - by apply call_send_request_client_at.
  - by apply call_send_request_client_at.
Qed.

(** ** composite_request *)

Example json_dumps_a_1 :
  json_dumps (PDict [("a", PInt 1)]) = "{" ++ dquote ++ "a" ++ dquote ++ ": 1}".
Proof. reflexivity. Qed.

Lemma composite_keywords (composite_url request_data : string) :
  let kwargs : gmap string pyval :=
    {[ "url" := PStr composite_url; "data" := PStr request_data ]} in
  kwargs !! "method" = None
  ∧ repeated_keyword ["method"; "url"; "headers"; "timeout"] kwargs
    = Some "url".
Proof. split; reflexivity. Qed.

(** C2 (as the code has it): for the input [{"a": 1}] the body is
    serialised to [{"a": 1}] and the [Content-Length] header is [8], but
    the composite url travels as a second [url] keyword next to the
    client's own url, the call of [requests.request] is a [TypeError], and
    [composite_request] returns the synthetic status-500 response without
    any request having been issued. *)
Theorem composite_request_never_sent s self u b d :
  client_at E s self u b d →
  let request_data := "{" ++ dquote ++ "a" ++ dquote ++ ": 1}" in
  let hd := {[ "Content-Length" := "8" ]} ∪ d in
  let req :=
    mkRequest "POST" u hd DEFAULT_TIMEOUT_SECONDS
      {[ "url" := PStr (SF_API_BASE_URL (settings E)
                        ++ "/services/data/v52.0/composite");
         "data" := PStr request_data ]} in
  composite_request E self (PDict [("a", PInt 1)]) s =
  (Ok error_response,
   mkState (world s) (heap s ++ [Dict hd])
     (trace s ++
      [EvLog INFO "Salesforce REST API request" (Some req);
       failure_log u (TypeError
         ("requests.api.request() got multiple values for keyword "
          ++ "argument 'url'"))])).
Proof.
  intros Hc. cbv zeta. unfold composite_request, post, call_send_request.
  rewrite json_dumps_a_1.
  destruct (composite_keywords
              (SF_API_BASE_URL (settings E) ++ "/services/data/v52.0/composite")
              ("{" ++ dquote ++ "a" ++ dquote ++ ": 1}")) as [Hm Hk].
  cbv zeta in Hm, Hk.
  rewrite bool_decide_eq_false_2 by (rewrite Hm; by intros [? ?]).
  rewrite (send_request_run _ _ _ _ _ _ _ _ _ Hc).
  unfold attempt. simpl req_kwargs. rewrite Hk. reflexivity.
Qed.

(** ** parse_json_body *)

(** C8 (amended): when [response.json()] raises a [JSONDecodeError],
    [parse_json_body] returns the mapping with [message] set to
    ["response.json() failed"] and [response] set to the raw text of the
    response; when the body decodes, it returns the decoded value. *)
Theorem parse_json_body_fallback (response : Response) :
  (∀ msg, json response = inl (JSONDecodeError msg) →
     parse_json_body response
     = inr (PDict [("message", PStr "response.json() failed");
                   ("response", PStr (text response))]))
  ∧ (∀ body, json response = inr body → parse_json_body response = inr body).
Proof.
  unfold parse_json_body, Response_json.
  split; intros ? H; by rewrite H.
Qed.

(** ** Construction of the client *)

Lemma store_new (h : list object) (o o' : object) :
  <[length h := o']> (h ++ [o])%list = (h ++ [o'])%list.
Proof.
  rewrite insert_app_r_alt by lia. by rewrite Nat.sub_diag.
Qed.

Lemma setattr_url_new s ou ob v :
  setattr_url E (length (heap s)) v
    (mkState (world s) (heap s ++ [Instance ou ob]) (trace s))
  = (Ok tt, mkState (world s) (heap s ++ [Instance (Some v) ob]) (trace s)).
Proof.
  unfold setattr_url, store. simpl. rewrite lookup_new. simpl.
  by rewrite store_new.
Qed.

Lemma SalesforceRestApiClient_fails s path exc w :
  login E (world s) = (inl exc, w) →
  SalesforceRestApiClient E path None s =
  (Raise (Exception exc),
   mkState w (heap s ++ [Instance (Some (client_url E path)) None])
     (trace s ++ [login_event E])).
Proof.
  intros Hl. unfold SalesforceRestApiClient, __init__.
  erewrite bind_Ok by reflexivity.
  erewrite bind_Raise; [done|].
  erewrite bind_Ok by apply setattr_url_new.
  erewrite bind_Raise; [done|].
  unfold init_client, call. simpl. unfold login in Hl. by rewrite Hl.
Qed.

Lemma SalesforceRestApiClient_run s path session w :
  login E (world s) = (inr session, w) →
  SalesforceRestApiClient E path None s =
  (Ok (length (heap s)),
   mkState w
     (heap s ++ [Instance (Some (client_url E path)) (Some (S (length (heap s))));
                 Dict (client_headers (headers session))])
     (trace s ++ [login_event E])).
Proof.
  intros Hl. unfold SalesforceRestApiClient, __init__.
  erewrite bind_Ok by reflexivity.
  erewrite bind_Ok; [done|].
  erewrite bind_Ok by apply setattr_url_new.
  erewrite bind_Ok; cycle 1.
  { unfold init_client, call. simpl. unfold login in Hl.
    by rewrite Hl. }
  erewrite bind_Ok by reflexivity. simpl.
  unfold bind, setattr_base_headers, store, ret. simpl.
  rewrite lookup_app_l by (rewrite length_app; simpl; lia).
  rewrite lookup_new. simpl.
  rewrite insert_app_l by (rewrite length_app; simpl; lia).
  rewrite store_new, length_app. simpl. rewrite Nat.add_1_r.
  by rewrite <- app_assoc.
Qed.

(** ** create_users_from_csv: authentication *)

(** C6: when the login to Salesforce fails while the client is
    constructed, [create_users_from_csv] raises the exception of the login;
    the only event is the login itself, so the CSV file has not been opened
    and no request has been sent. *)
Theorem authentication_failure_aborts s path exc w :
  login E (world s) = (inl exc, w) →
  ∃ h, create_users_from_csv E path s =
       (Raise (Exception exc), mkState w h (trace s ++ [login_event E])).
Proof.
  intros Hl. eexists. unfold create_users_from_csv.
  erewrite bind_Raise; [done|]. by apply SalesforceRestApiClient_fails.
Qed.

(** ** main *)

(** C7: once the settings are loaded, [main] prints the environment name.
    In the environment [prod] it asks for confirmation: when the answer,
    put in lower case, is neither [yes] nor [y], it prints the abort line
    and exits with status 1, and nothing else happens; when it is [yes] or
    [y], the importer runs.  In any other environment the importer runs
    without a question. *)
Theorem main_confirmation s st w0 :
  new_Settings E (world s) = (inr st, w0) →
  let t1 := (trace s ++ [EvPrint ("実行環境: " ++ Config_env E)])%list in
  (Config_env E = "prod" →
   ∀ confirm w1, console_input E confirm_prompt w0 = (inr confirm, w1) →
     (lower confirm ∉ ["yes"; "y"] →
      main E s =
      (Raise (SystemExit 1),
       mkState w1 (heap s)
         (t1 ++ [EvInput confirm_prompt;
                 EvPrint "====== 処理中断 ====== "])))
     ∧ (lower confirm ∈ ["yes"; "y"] →
        main E s =
        create_users_from_csv E users_csv
          (mkState w1 (heap s)
             (t1 ++ [EvInput confirm_prompt;
                     EvPrint "====== 処理開始 ======"]))))
  ∧ (Config_env E ≠ "prod" →
     main E s =
     create_users_from_csv E users_csv
       (mkState w0 (heap s) (t1 ++ [EvPrint "====== 処理開始 ======"]))).
Proof.
  intros Hst t1. unfold main.
  erewrite bind_Ok; [|unfold Settings_; by rewrite Hst].
  erewrite bind_Ok by reflexivity. simpl trace. fold t1.
  split.
  - intros Hprod confirm w1 Hin. rewrite Hprod. simpl String.eqb.
    cbv iota. split; intros Hans.
    + erewrite bind_Raise; [done|].
      erewrite bind_Ok; [|unfold call; simpl; by rewrite Hin].
      rewrite bool_decide_eq_false_2 by done. cbn [negb].
      erewrite bind_Ok by reflexivity. unfold sys_exit, raise. simpl.
      by rewrite <- app_assoc.
    + erewrite bind_Ok; cycle 1.
      { erewrite bind_Ok; [|unfold call; simpl; by rewrite Hin].
        rewrite bool_decide_eq_true_2 by done. cbn [negb]. reflexivity. }
      erewrite bind_Ok by reflexivity. simpl. by rewrite <- app_assoc.
  - intros Hdev. apply String.eqb_neq in Hdev. rewrite Hdev.
    erewrite bind_Ok by reflexivity.
    erewrite bind_Ok by reflexivity. reflexivity.
Qed.

(** ** create_users_from_csv: one row *)

Lemma requests_of_app (t t' : list event) :
  requests_of (t ++ t') = (requests_of t ++ requests_of t')%list.
Proof. apply omap_app. Qed.

Lemma dict_display_complete s row (keys : list string) :
  Forall (λ k, is_Some (row !! k)) keys →
  dict_display E row keys s =
  (Ok (map (λ k, (k, cell_value (default None (row !! k)))) keys), s).
Proof.
  induction 1 as [|k keys [v Hv] _ IH]; [done|]. cbn [dict_display map].
  erewrite bind_Ok; [|unfold subscript; by rewrite Hv].
  erewrite bind_Ok by apply IH. by rewrite Hv.
Qed.

Lemma dict_display_missing s row (keys : list string) :
  ¬ Forall (λ k, is_Some (row !! k)) keys →
  ∃ k, k ∈ keys ∧ row !! k = None
       ∧ dict_display E row keys s = (Raise (Exception (KeyError k)), s).
Proof.
  induction keys as [|k keys IH]; intros Hn.
  - by destruct Hn.
  - destruct (row !! k) as [v|] eqn:Hk.
    + destruct IH as (k' & Hin & Hk' & Hrun).
      { intros Hall. apply Hn. constructor; [by rewrite Hk|done]. }
      exists k'. split; [by right|]. split; [done|]. cbn [dict_display].
      erewrite bind_Ok; [|unfold subscript; by rewrite Hk].
      by erewrite bind_Raise.
    + exists k. split; [by left|]. split; [done|]. cbn [dict_display].
      erewrite bind_Raise; [done|]. unfold subscript. by rewrite Hk.
Qed.

Lemma complete_Username row :
  complete row → is_Some (row !! "Username").
Proof.
  unfold complete. rewrite Forall_forall. intros H. apply H.
  unfold required_columns. set_solver.
Qed.

Lemma data_keywords (data : string) :
  let kwargs : gmap string pyval := {[ "data" := PStr data ]} in
  kwargs !! "method" = None
  ∧ repeated_keyword ["method"; "url"; "headers"; "timeout"] kwargs = None.
Proof. split; reflexivity. Qed.

Lemma post_data_run s sf u b d (data : string) :
  client_at E s sf u b d →
  let req :=
    mkRequest "POST" u d DEFAULT_TIMEOUT_SECONDS {[ "data" := PStr data ]} in
  let a := attempt E u req (world s) in
  post E sf None None {[ "data" := PStr data ]} s =
  (Ok a.1.1,
   mkState a.1.2 (heap s ++ [Dict d])
     (trace s ++ EvLog INFO "Salesforce REST API request" (Some req) :: a.2)).
Proof.
  intros Hc. cbv zeta. unfold post, call_send_request.
  destruct (data_keywords data) as [Hm _]. cbv zeta in Hm.
  rewrite bool_decide_eq_false_2 by (rewrite Hm; by intros [? ?]).
  rewrite (send_request_run _ _ _ _ _ _ _ _ _ Hc). simpl default.
  by rewrite (left_id_L ∅ (∪) d).
Qed.

(** A complete row: the request is attempted and the line printed is the
    success line, whatever the attempt gave. *)
Lemma create_user_complete s sf u b d row :
  client_at E s sf u b d →
  complete row →
  let req :=
    mkRequest "POST" u d DEFAULT_TIMEOUT_SECONDS
      {[ "data" := PStr (json_dumps (PDict (user_record row))) ]} in
  let a := attempt E u req (world s) in
  create_user E sf row s =
  (Ok tt,
   mkState a.1.2 (heap s ++ [Dict d])
     (trace s ++
      EvLog INFO "Salesforce REST API request" (Some req) :: a.2 ++
      [EvPrint ("Successfully created user: "
                ++ str_opt (default None (row !! "Username")) ++ " -> "
                ++ repr_Response a.1.1)])).
Proof.
  intros Hc Hrow. cbv zeta. unfold create_user.
  destruct (complete_Username _ Hrow) as [name Hname].
  erewrite try_except_Ok; [done|].
  erewrite bind_Ok by (by apply dict_display_complete).
  fold (user_record row).
  erewrite bind_Ok by (by eapply post_data_run).
  erewrite bind_Ok; [|unfold subscript; by rewrite Hname].
  unfold print, emit. simpl. rewrite Hname. simpl.
  by rewrite <- app_assoc.
Qed.

(** An incomplete row: no request, and the failure line names the first
    missing column. *)
Lemma create_user_incomplete s sf row :
  ¬ complete row →
  ∃ k, k ∈ required_columns ∧ row !! k = None
       ∧ create_user E sf row s =
         (Ok tt,
          mkState (world s) (heap s)
            (trace s ++
             [EvPrint ("Failed to create user: "
                       ++ match row !! "Username" with
                          | Some name => str_opt name
                          | None => "No Username"
                          end
                       ++ " -> '" ++ k ++ "'")])).
Proof.
  intros Hn.
  destruct (dict_display_missing s row required_columns Hn)
    as (k & Hin & Hk & Hrun).
  exists k. split; [done|]. split; [done|]. unfold create_user.
  erewrite try_except_Exception; cycle 1.
  { by erewrite bind_Raise. }
  unfold print, emit, row_get. simpl. by destruct (row !! "Username").
Qed.

(** ** create_users_from_csv: the loop *)

Lemma attempt_requests u (req : request) (w : World E) :
  repeated_keyword ["method"; "url"; "headers"; "timeout"] (req_kwargs req)
  = None →
  requests_of (attempt E u req w).2 = [req].
Proof.
  intros Hk. unfold attempt. rewrite Hk.
  destruct (requests_request E req w) as [[exc|r] w']; [done|].
  by destruct (raise_for_status r).
Qed.

Lemma requests_of_log level msg extra (t : list event) :
  requests_of (EvLog level msg extra :: t) = requests_of t.
Proof. done. Qed.

Lemma create_user_step s sf u b d row :
  client_at E s sf u b d →
  ∃ s', create_user E sf row s = (Ok tt, s') ∧ client_at E s' sf u b d.
Proof.
  intros Hc. destruct (decide (complete row)) as [Hrow|Hrow].
  - eexists. split; [by eapply create_user_complete|].
    destruct Hc as [Hself Hb]. split; simpl; by apply lookup_alloc.
  - destruct (create_user_incomplete s sf row Hrow) as (k & _ & _ & Hrun).
    eexists. split; [done|]. done.
Qed.

Lemma for_each_create_user s sf u b d (rows : list (gmap string cell)) :
  client_at E s sf u b d →
  ∃ s', for_each E rows (create_user E sf) s = (Ok tt, s')
        ∧ client_at E s' sf u b d.
Proof.
  revert s. induction rows as [|row rows IH]; intros s Hc.
  - by exists s.
  - destruct (create_user_step s sf u b d row Hc) as (s1 & Hrun & Hc1).
    destruct (IH s1 Hc1) as (s2 & Hrest & Hc2).
    exists s2. split; [|done]. cbn [for_each]. by erewrite bind_Ok.
Qed.

Lemma for_each_app {A} (l1 l2 : list A) (body : A → M E unit) s s1 :
  for_each E l1 body s = (Ok tt, s1) →
  for_each E (l1 ++ l2) body s = for_each E l2 body s1.
Proof.
  revert s. induction l1 as [|x l1 IH]; intros s H; cbn [for_each app] in *.
  - by inversion H.
  - unfold bind in *. destruct (body x s) as [[[]|e] s']; [|done].
    by apply IH.
Qed.

Lemma for_each_requests s sf u b d (rows : list (gmap string cell)) :
  client_at E s sf u b d →
  Forall complete rows →
  requests_of (trace (for_each E rows (create_user E sf) s).2) =
  (requests_of (trace s) ++
   map (λ row, mkRequest "POST" u d DEFAULT_TIMEOUT_SECONDS
                 {[ "data" := PStr (json_dumps (PDict (user_record row))) ]})
     rows)%list.
Proof.
  intros Hc Hrows. revert s Hc.
  induction Hrows as [|row rows Hrow _ IH]; intros s Hc.
  - simpl. by rewrite app_nil_r.
  - destruct (create_user_step s sf u b d row Hc) as (s1 & Hrun & Hc1).
    cbn [for_each map]. erewrite bind_Ok by done. rewrite (IH s1 Hc1).
    rewrite (create_user_complete s sf u b d row Hc Hrow) in Hrun.
    cbv zeta in Hrun. inversion Hrun as [Hs1]. simpl.
    rewrite requests_of_app, requests_of_log, requests_of_app.
    rewrite attempt_requests
      by apply (data_keywords (json_dumps (PDict (user_record row)))).
    simpl. by rewrite <- app_assoc.
Qed.

Lemma client_at_new s w t u hd :
  client_at E
    (mkState w
       (heap s ++ [Instance (Some u) (Some (S (length (heap s)))); Dict hd]) t)
    (length (heap s)) u (S (length (heap s))) hd.
Proof.
  split; simpl.
  - by apply list_lookup_middle.
  - rewrite lookup_app_r by lia.
    by replace (S (length (heap s)) - length (heap s)) with 1 by lia.
Qed.

(** C4: when the login succeeds and every row the reader yields has all
    the required columns, the requests issued are one POST per row, each
    carrying the row's user record, in the order of the rows. *)
Theorem one_create_call_per_row s path session w1 rows pending w2 :
  login E (world s) = (inr session, w1) →
  DictReader E path w1 = ((rows, pending), w2) →
  Forall complete rows →
  requests_of (trace (create_users_from_csv E path s).2) =
  (requests_of (trace s) ++ map (create_request E (headers session)) rows)%list.
Proof.
  intros Hl Hr Hrows. unfold create_users_from_csv.
  erewrite bind_Ok by (by apply SalesforceRestApiClient_run).
  erewrite bind_Ok; [|unfold open_DictReader; simpl; by rewrite Hr].
  cbn [fst snd].
  pose proof (client_at_new s w2
    ((trace s ++ [login_event E]) ++ [EvOpen path])%list
    (client_url E "/services/data/v50.0/sobjects/User")
    (client_headers (headers session))) as Hc.
  pose proof (for_each_requests _ _ _ _ _ rows Hc Hrows) as Hreq.
  destruct (for_each_create_user _ _ _ _ _ rows Hc) as (s2 & Hrun & _).
  rewrite Hrun in Hreq. cbn [snd] in Hreq.
  erewrite bind_Ok by exact Hrun.
  replace (trace (match pending with
                  | Some exc => raise E (Exception exc)
                  | None => ret E ()
                  end s2).2) with (trace s2) by (by destruct pending).
  rewrite Hreq. simpl trace.
  rewrite !requests_of_app. simpl. by rewrite !app_nil_r.
Qed.

Lemma prints_of_app (t t' : list event) :
  prints_of (t ++ t') = (prints_of t ++ prints_of t')%list.
Proof. apply omap_app. Qed.

(** C1 (as the code has it): when the API answers the create call of a
    complete row with a status from 400 to 599, [send_request] hands the
    importer the synthetic status-500 response, no exception reaches the
    [except] clause, and the one line printed for the row is the success
    line, showing [<Response [500]>]. *)
Theorem api_error_reported_as_success s sf u b d row resp w :
  client_at E s sf u b d →
  complete row →
  requests_request E
    (mkRequest "POST" u d DEFAULT_TIMEOUT_SECONDS
       {[ "data" := PStr (json_dumps (PDict (user_record row))) ]})
    (world s) = (inr resp, w) →
  (400 ≤ status_code resp < 600)%Z →
  (create_user E sf row s).1 = Ok tt
  ∧ prints_of (trace (create_user E sf row s).2) =
    (prints_of (trace s) ++
     [("Successfully created user: "
       ++ str_opt (default None (row !! "Username"))
       ++ " -> <Response [500]>")%string])%list.
Proof.
  intros Hc Hrow Hw Hst.
  rewrite (create_user_complete s sf u b d row Hc Hrow). cbv zeta.
  split; [done|]. unfold attempt. cbn [req_kwargs].
  destruct (data_keywords (json_dumps (PDict (user_record row)))) as [_ Hk].
  cbv zeta in Hk. rewrite Hk, Hw.
  destruct (raise_for_status resp) as [exc|] eqn:Hr.
  - cbn [fst snd trace]. rewrite prints_of_app. done.
  - apply raise_for_status_None in Hr. lia.
Qed.

(** * Further properties *)

(** ** The constructor *)

(** X1: leading slashes of the resource path do not reach the url: a client
    constructed for [/path] runs exactly as one constructed for [path], and
    the path that follows the base url and its slash never starts with a
    slash. *)
Theorem constructor_strips_leading_slashes path additional_headers :
  SalesforceRestApiClient E (String "/" path) additional_headers
  = SalesforceRestApiClient E path additional_headers
  ∧ ∀ rest, lstrip "/" path ≠ String "/" rest.
Proof.
  split; [reflexivity|].
  induction path as [|a path IH]; intros rest; [done|].
  simpl. destruct (Ascii.eqb a "/") eqn:Ha; [apply IH|].
  intros [= -> _]. by rewrite Ascii.eqb_refl in Ha.
Qed.

Lemma lookup_second (h : list object) (o o' : object) :
  (h ++ [o; o'])%list !! S (length h) = Some o'.
Proof.
  rewrite lookup_app_r by lia.
  by replace (S (length h) - length h) with 1 by lia.
Qed.

Lemma SalesforceRestApiClient_run_with s path additional_headers session w :
  login E (world s) = (inr session, w) →
  SalesforceRestApiClient E path additional_headers s =
  (Ok (length (heap s)),
   mkState w
     (heap s ++ [Instance (Some (client_url E path)) (Some (S (length (heap s))));
                 Dict (default ∅ additional_headers
                       ∪ client_headers (headers session))])
     (trace s ++ [login_event E])).
Proof.
  intros Hl. unfold SalesforceRestApiClient, __init__.
  erewrite bind_Ok by reflexivity.
  erewrite bind_Ok; [done|].
  erewrite bind_Ok by apply setattr_url_new.
  erewrite bind_Ok; cycle 1.
  { unfold init_client, call. simpl. unfold login in Hl. by rewrite Hl. }
  erewrite bind_Ok by reflexivity. simpl.
  erewrite bind_Ok; cycle 1.
  { unfold setattr_base_headers, store. simpl.
    rewrite lookup_app_l by (rewrite length_app; simpl; lia).
    rewrite lookup_new. simpl.
    rewrite insert_app_l by (rewrite length_app; simpl; lia).
    rewrite store_new, length_app. simpl. rewrite Nat.add_1_r.
    rewrite <- app_assoc. reflexivity. }
  destruct additional_headers as [extra|]; simpl.
  - case_bool_decide as Hextra.
    + subst extra. unfold ret. by rewrite (left_id_L ∅ (∪)).
    + erewrite bind_Ok; cycle 1.
      { eapply getattr_base_headers_run. simpl. by apply list_lookup_middle. }
      unfold dict_update.
      erewrite bind_Ok; cycle 1.
      { eapply dict_items_run. simpl. apply lookup_second. }
      unfold store. simpl. do 2 f_equal.
      rewrite insert_app_r_alt by lia.
      by replace (S (length (heap s)) - length (heap s)) with 1 by lia.
  - unfold ret. by rewrite (left_id_L ∅ (∪)).
Qed.

(** X2: when the login succeeds the constructor returns a client whose url
    is the base url, a slash and the stripped path, and whose base headers
    are looked up in this order: the additional headers passed by the
    caller, then the headers of the Salesforce session, then the defaults
    [Content-Type: application/json] and [Accept: */*]. *)
Theorem constructor_header_precedence s path additional_headers session w :
  login E (world s) = (inr session, w) →
  let run := SalesforceRestApiClient E path additional_headers s in
  let extra := default ∅ additional_headers in
  ∃ self b d,
    run.1 = Ok self
    ∧ client_at E run.2 self (client_url E path) b d
    ∧ (∀ k v, extra !! k = Some v → d !! k = Some v)
    ∧ (∀ k v, extra !! k = None → headers session !! k = Some v →
              d !! k = Some v)
    ∧ (∀ k, extra !! k = None → headers session !! k = None →
            d !! k = ({[ "Content-Type" := "application/json";
                         "Accept" := "*/*" ]} : gmap string string) !! k).
Proof.
  intros Hl. cbv zeta.
  rewrite (SalesforceRestApiClient_run_with _ _ _ _ _ Hl).
  eexists _, _, _. split; [reflexivity|]. split; [apply client_at_new|].
  unfold client_headers. split; [|split].
  - intros k v Hk. by apply lookup_union_Some_l.
  - intros k v Hk Hs. rewrite lookup_union_r by done.
    by apply lookup_union_Some_l.
  - intros k Hk Hs. by rewrite !lookup_union_r by done.
Qed.

(** ** One call of the client *)

Lemma attempt_no_request u (req : request) (w : World E) k :
  repeated_keyword ["method"; "url"; "headers"; "timeout"] (req_kwargs req)
  = Some k →
  (attempt E u req w).1 = (error_response, w)
  ∧ requests_of (attempt E u req w).2 = [].
Proof. intros Hk. unfold attempt. by rewrite Hk. Qed.

(** X3: one call of [send_request] makes at most one request, never a
    second try.  When no keyword is repeated the request is made once, to
    the client's own url, with the call's headers laid over the base
    headers; when [kwargs] repeats [method], [url], [headers] or [timeout]
    no request is made and the world is left as it was. *)
Theorem send_request_one_request s self u b d method headers timeout kwargs :
  client_at E s self u b d →
  let run := send_request E self method headers timeout kwargs s in
  match repeated_keyword ["method"; "url"; "headers"; "timeout"] kwargs with
  | None =>
    requests_of (trace run.2) =
    (requests_of (trace s)
     ++ [mkRequest method u (default ∅ headers ∪ d) timeout kwargs])%list
  | Some _ =>
    requests_of (trace run.2) = requests_of (trace s)
    ∧ world run.2 = world s
    ∧ run.1 = Ok error_response
  end.
Proof.
  intros Hc. cbv zeta. rewrite (send_request_run _ _ _ _ _ _ _ _ _ Hc).
  cbn [fst snd trace world]. rewrite requests_of_app, requests_of_log.
  destruct (repeated_keyword _ kwargs) as [k|] eqn:Hk.
  - destruct (attempt_no_request u
                (mkRequest method u (default ∅ headers ∪ d) timeout kwargs)
                (world s) k Hk) as [H1 H2].
    rewrite H2, app_nil_r. split; [done|].
    destruct (attempt _ _ _ _) as [[r w] evs]. by inversion H1.
  - by rewrite attempt_requests.
Qed.


(** X5: unlike [send_request], the wrappers can raise: a [method] keyword
    passed to [get], [post] or [patch] is a [TypeError] at the call of
    [send_request], before anything is logged or sent. *)
Theorem wrappers_reject_method_keyword s self headers timeout kwargs :
  is_Some (kwargs !! "method") →
  let error :=
    Raise (Exception (TypeError
      ("SalesforceRestApiClient.send_request() got multiple values for "
       ++ "argument 'method'"))) in
  get E self headers timeout kwargs s = (error, s)
  ∧ post E self headers timeout kwargs s = (error, s)
  ∧ patch E self headers timeout kwargs s = (error, s).
Proof.
  intros Hm. cbv zeta. unfold get, post, patch, call_send_request.
  by rewrite bool_decide_eq_true_2.
Qed.

(** X6: [composite_request] never reaches the network, whatever it is
    handed and whatever the client.  For data [json.dumps] can serialise it
    returns the synthetic status-500 response; for data [json.dumps]
    refuses it raises the error of [json.dumps], before anything is
    logged.  Either way the world is left as it was and no request is
    added to the trace. *)
Theorem composite_request_always_fails s self u b d
    (composite_data : pyobject) :
  client_at E s self u b d →
  let run := composite_request_object E self composite_data s in
  world run.2 = world s
  ∧ requests_of (trace run.2) = requests_of (trace s)
  ∧ match composite_data with
    | Serialisable v =>
      run.1 = Ok error_response ∧ run = composite_request E self v s
    | Unserialisable exc => run = (Raise (Exception exc), s)
    end.
Proof.
  intros Hc. cbv zeta. destruct composite_data as [v|exc]; [|done].
  unfold composite_request_object, json_dumps_object.
  change (post E self _ None _ s) with (composite_request E self v s).
  unfold composite_request, post, call_send_request.
  destruct (composite_keywords
              (SF_API_BASE_URL (settings E) ++ "/services/data/v52.0/composite")
              (json_dumps v)) as [Hm Hk].
  cbv zeta in Hm, Hk.
  rewrite bool_decide_eq_false_2 by (rewrite Hm; by intros [? ?]).
  rewrite (send_request_run _ _ _ _ _ _ _ _ _ Hc).
  cbn [fst snd trace world].
  rewrite requests_of_app, requests_of_log.
  match goal with
  | |- context [attempt E u ?req (world s)] =>
    destruct (attempt_no_request u req (world s) "url" Hk) as [H1 H2];
    rewrite H2, app_nil_r;
    destruct (attempt E u req (world s)) as [[r w] evs]
  end.
  by inversion H1.
Qed.

(** X7: an answer whose status is outside 400..599, 600 and above
    included, is the result of [send_request] as it is; the call adds the
    request log and the request to the trace and nothing else, so no error
    is logged. *)
Theorem send_request_success_path s self u b d method headers timeout kwargs
    resp w :
  client_at E s self u b d →
  repeated_keyword ["method"; "url"; "headers"; "timeout"] kwargs = None →
  let req := mkRequest method u (default ∅ headers ∪ d) timeout kwargs in
  requests_request E req (world s) = (inr resp, w) →
  ¬ (400 ≤ status_code resp < 600)%Z →
  let run := send_request E self method headers timeout kwargs s in
  run.1 = Ok resp
  ∧ world run.2 = w
  ∧ trace run.2 =
    (trace s ++ [EvLog INFO "Salesforce REST API request" (Some req);
                 EvRequest req])%list.
Proof.
  intros Hc Hk req Hw Hst. cbv zeta.
  rewrite (send_request_run _ _ _ _ _ _ _ _ _ Hc). fold req.
  unfold attempt. cbn [req_kwargs req]. rewrite Hk. fold req. rewrite Hw.
  apply raise_for_status_None in Hst. by rewrite Hst.
Qed.

(** ** parse_json_body *)

(** X8: [parse_json_body] never hands a [JSONDecodeError] to its caller,
    and it is only that exception it absorbs: any other exception of
    [response.json()] comes out as it went in. *)
Theorem parse_json_body_absorbs_decode_errors_only (response : Response) :
  (∀ msg, parse_json_body response ≠ inl (JSONDecodeError msg))
  ∧ (∀ exc, json response = inl exc → is_JSONDecodeError exc = false →
            parse_json_body response = inl exc).
Proof.
  unfold parse_json_body, Response_json. split.
  - intros msg. destruct (json response) as [exc|body]; [|done].
    destruct exc; simpl; congruence.
  - intros exc Hj Hexc. by rewrite Hj, Hexc.
Qed.

(** X9: [send_request] followed by [parse_json_body] loses the answer of
    a refused request: when the API answers with a status from 400 to 599,
    whatever the body of that answer, the response returned decodes to the
    fallback mapping with an empty [response] text. *)
Theorem refused_request_parses_to_empty_fallback s self u b d method headers
    timeout kwargs resp w :
  client_at E s self u b d →
  requests_request E
    (mkRequest method u (default ∅ headers ∪ d) timeout kwargs) (world s)
  = (inr resp, w) →
  (400 ≤ status_code resp < 600)%Z →
  ∃ r, (send_request E self method headers timeout kwargs s).1 = Ok r
       ∧ parse_json_body r
         = inr (PDict [("message", PStr "response.json() failed");
                       ("response", PStr "")]).
Proof.
  intros Hc Hw Hst. exists error_response. split; [|reflexivity].
  rewrite (send_request_run _ _ _ _ _ _ _ _ _ Hc). cbn [fst].
  unfold attempt. cbn [req_kwargs]. rewrite Hw.
  destruct (repeated_keyword _ kwargs); [done|].
  destruct (raise_for_status resp) eqn:Hr; [done|].
  apply raise_for_status_None in Hr. lia.
Qed.

(** ** The whole batch *)

Lemma attempt_events u (req : request) (w : World E) :
  Forall row_event (attempt E u req w).2
  ∧ prints_of (attempt E u req w).2 = [].
Proof.
  unfold attempt. destruct (repeated_keyword _ _).
  - split; [by repeat constructor|done].
  - destruct (requests_request E req w) as [[exc|r] w'].
    + split; [by repeat constructor|done].
    + destruct (raise_for_status r); (split; [by repeat constructor|done]).
Qed.

Lemma prints_of_log level msg extra (t : list event) :
  prints_of (EvLog level msg extra :: t) = prints_of t.
Proof. done. Qed.

(** What one row adds to the trace. *)
Lemma create_user_trace s sf u b d row :
  client_at E s sf u b d →
  ∃ s' evs,
    create_user E sf row s = (Ok tt, s')
    ∧ client_at E s' sf u b d
    ∧ trace s' = (trace s ++ evs)%list
    ∧ Forall row_event evs
    ∧ length (prints_of evs) = 1
    ∧ requests_of evs =
      map (λ row, mkRequest "POST" u d DEFAULT_TIMEOUT_SECONDS
                    {[ "data" := PStr (json_dumps (PDict (user_record row))) ]})
        (filter complete [row]).
Proof.
  intros Hc. destruct (decide (complete row)) as [Hrow|Hrow].
  - eexists _, _. split; [by eapply create_user_complete|].
    split; [destruct Hc; split; simpl; by apply lookup_alloc|].
    split; [reflexivity|].
    match goal with
    | |- context [attempt E u ?req (world s)] =>
      destruct (attempt_events u req (world s)) as [Hev Hpr];
      pose proof (attempt_requests u req (world s)
        (proj2 (data_keywords (json_dumps (PDict (user_record row))))))
        as Hreq
    end.
    split; [|split].
    + constructor; [done|]. apply Forall_app. split; [done|].
      by repeat constructor.
    + rewrite prints_of_log, prints_of_app, Hpr. reflexivity.
    + rewrite requests_of_log, requests_of_app, Hreq.
      rewrite filter_cons_True by done. reflexivity.
  - destruct (create_user_incomplete s sf row Hrow) as (k & _ & _ & Hrun).
    eexists _, _. split; [exact Hrun|]. split; [done|].
    split; [reflexivity|]. split; [by repeat constructor|].
    split; [done|]. by rewrite filter_cons_False by done.
Qed.

(** What the loop adds to the trace. *)
Lemma for_each_trace s sf u b d (rows : list (gmap string cell)) :
  client_at E s sf u b d →
  ∃ s' evs,
    for_each E rows (create_user E sf) s = (Ok tt, s')
    ∧ trace s' = (trace s ++ evs)%list
    ∧ Forall row_event evs
    ∧ length (prints_of evs) = length rows
    ∧ requests_of evs =
      map (λ row, mkRequest "POST" u d DEFAULT_TIMEOUT_SECONDS
                    {[ "data" := PStr (json_dumps (PDict (user_record row))) ]})
        (filter complete rows).
Proof.
  revert s. induction rows as [|row rows IH]; intros s Hc.
  - exists s, []. simpl. by rewrite app_nil_r.
  - destruct (create_user_trace s sf u b d row Hc)
      as (s1 & evs1 & Hrun1 & Hc1 & Ht1 & Hev1 & Hpr1 & Hreq1).
    destruct (IH s1 Hc1) as (s2 & evs2 & Hrun2 & Ht2 & Hev2 & Hpr2 & Hreq2).
    exists s2, (evs1 ++ evs2)%list. cbn [for_each].
    erewrite bind_Ok by exact Hrun1. rewrite Hrun2.
    split; [done|].
    split; [by rewrite Ht2, Ht1, app_assoc|].
    split; [by apply Forall_app|].
    split.
    + rewrite prints_of_app, length_app, Hpr1, Hpr2. reflexivity.
    + rewrite requests_of_app, Hreq1, Hreq2, <- map_app.
      f_equal. rewrite (filter_app _ [row] rows). reflexivity.
Qed.

(** The whole importer when the login succeeds. *)
Lemma create_users_from_csv_trace s path session w1 rows pending w2 :
  login E (world s) = (inr session, w1) →
  DictReader E path w1 = ((rows, pending), w2) →
  ∃ s' evs,
    create_users_from_csv E path s =
    (match pending with
     | Some exc => Raise (Exception exc)
     | None => Ok tt
     end, s')
    ∧ trace s' = (trace s ++ [login_event E; EvOpen path] ++ evs)%list
    ∧ Forall row_event evs
    ∧ length (prints_of evs) = length rows
    ∧ requests_of evs =
      map (create_request E (headers session)) (filter complete rows).
Proof.
  intros Hl Hr. unfold create_users_from_csv.
  erewrite bind_Ok by (by apply SalesforceRestApiClient_run).
  erewrite bind_Ok; [|unfold open_DictReader; simpl; by rewrite Hr].
  cbn [fst snd].
  pose proof (client_at_new s w2
    ((trace s ++ [login_event E]) ++ [EvOpen path])%list
    (client_url E "/services/data/v50.0/sobjects/User")
    (client_headers (headers session))) as Hc.
  destruct (for_each_trace _ _ _ _ _ rows Hc)
    as (s' & evs & Hrun & Ht & Hev & Hpr & Hreq).
  exists s', evs. erewrite bind_Ok by exact Hrun.
  split; [by destruct pending|].
  split; [|done]. rewrite Ht. simpl. by rewrite <- !app_assoc.
Qed.

Lemma client_at_print s sf u b d line :
  client_at E s sf u b d →
  client_at E (mkState (world s) (heap s) (trace s ++ [EvPrint line]))
    sf u b d.
Proof. by intros [? ?]. Qed.

(** C5: when the login succeeds and the reader yields a row without one of
    the required columns, the importer prints a failure line for that row
    at the row's place in the output: after the events of the rows before
    it and before those of the rows after it, with no request in between.
    The line names the row's username, or [No Username] when the row has no
    such column, and a column the row lacks.  The rows after it are still
    processed: each gets its line, and each complete one its request.  The
    importer then returns normally, unless the reader itself failed. *)
Theorem missing_column_reported s path session w1
    (before : list (gmap string cell)) row
    (after : list (gmap string cell)) pending w2 :
  login E (world s) = (inr session, w1) →
  DictReader E path w1 = ((before ++ row :: after)%list, pending, w2) →
  ¬ complete row →
  ∃ k evs_before evs_after,
    k ∈ required_columns ∧ row !! k = None
    ∧ trace (create_users_from_csv E path s).2 =
      (trace s ++ [login_event E; EvOpen path] ++ evs_before
       ++ [EvPrint ("Failed to create user: "
                    ++ match row !! "Username" with
                       | Some name => str_opt name
                       | None => "No Username"
                       end
                    ++ " -> '" ++ k ++ "'")]
       ++ evs_after)%list
    ∧ length (prints_of evs_before) = length before
    ∧ requests_of evs_before =
      map (create_request E (headers session)) (filter complete before)
    ∧ length (prints_of evs_after) = length after
    ∧ requests_of evs_after =
      map (create_request E (headers session)) (filter complete after)
    ∧ (pending = None → (create_users_from_csv E path s).1 = Ok tt).
Proof.
  intros Hl Hr Hrow. unfold create_users_from_csv.
  erewrite bind_Ok by (by apply SalesforceRestApiClient_run).
  erewrite bind_Ok; [|unfold open_DictReader; simpl; by rewrite Hr].
  cbn [fst snd].
  pose proof (client_at_new s w2
    ((trace s ++ [login_event E]) ++ [EvOpen path])%list
    (client_url E "/services/data/v50.0/sobjects/User")
    (client_headers (headers session))) as Hc.
  destruct (for_each_create_user _ _ _ _ _ before Hc) as (s1 & Hrun1 & Hc1).
  destruct (for_each_trace _ _ _ _ _ before Hc)
    as (s1' & evs1 & Hrun1' & Ht1 & _ & Hpr1 & Hreq1).
  rewrite Hrun1 in Hrun1'. injection Hrun1' as <-.
  destruct (create_user_incomplete s1 (length (heap s)) row Hrow)
    as (k & Hk & Hmiss & Hrun2).
  pose proof (client_at_print s1 _ _ _ _
    ("Failed to create user: "
     ++ match row !! "Username" with
        | Some name => str_opt name
        | None => "No Username"
        end
     ++ " -> '" ++ k ++ "'") Hc1) as Hc2.
  destruct (for_each_trace _ _ _ _ _ after Hc2)
    as (s3 & evs3 & Hrun3 & Ht3 & _ & Hpr3 & Hreq3).
  exists k, evs1, evs3. split; [done|]. split; [done|].
  erewrite bind_Ok; cycle 1.
  { rewrite (for_each_app _ _ _ _ _ Hrun1). cbn [for_each].
    erewrite (bind_Ok _ _ _ _ _ Hrun2). exact Hrun3. }
  split.
  - replace (trace (match pending with
                    | Some exc => raise E (Exception exc)
                    | None => ret E ()
                    end s3).2) with (trace s3) by (by destruct pending).
    rewrite Ht3. cbn [trace]. rewrite Ht1. cbn [trace].
    by rewrite <- !app_assoc.
  - split; [done|]. split; [done|]. split; [done|]. split; [done|].
    by intros ->.
Qed.

(** X10: every row of the file is reported exactly once: when the login
    succeeds the importer prints as many lines as the reader yields rows,
    complete or not, refused by the API or not. *)
Theorem one_line_per_row s path session w1 rows pending w2 :
  login E (world s) = (inr session, w1) →
  DictReader E path w1 = ((rows, pending), w2) →
  length (prints_of (trace (create_users_from_csv E path s).2))
  = length (prints_of (trace s)) + length rows.
Proof.
  intros Hl Hr.
  destruct (create_users_from_csv_trace s path session w1 rows pending w2
              Hl Hr) as (s' & evs & Hrun & Ht & _ & Hpr & _).
  rewrite Hrun. cbn [snd]. rewrite Ht, !prints_of_app, !length_app, Hpr.
  simpl. lia.
Qed.

(** X11: the requests of a batch are the create calls of its complete
    rows, in the order of the file: a row without one of the required
    columns never causes a request, and neither does anything else. *)
Theorem requests_for_complete_rows_only s path session w1 rows pending w2 :
  login E (world s) = (inr session, w1) →
  DictReader E path w1 = ((rows, pending), w2) →
  requests_of (trace (create_users_from_csv E path s).2) =
  (requests_of (trace s)
   ++ map (create_request E (headers session)) (filter complete rows))%list.
Proof.
  intros Hl Hr.
  destruct (create_users_from_csv_trace s path session w1 rows pending w2
              Hl Hr) as (s' & evs & Hrun & Ht & _ & _ & Hreq).
  rewrite Hrun. cbn [snd]. rewrite Ht, !requests_of_app, Hreq.
  simpl. reflexivity.
Qed.

(** X12: a batch logs in once and opens the file once, in that order and
    before the first row is touched: everything that follows in the trace
    is a printed line, a log line or a request. *)
Theorem one_login_then_one_open s path session w1 rows pending w2 :
  login E (world s) = (inr session, w1) →
  DictReader E path w1 = ((rows, pending), w2) →
  ∃ evs,
    trace (create_users_from_csv E path s).2 =
    (trace s ++ [login_event E; EvOpen path] ++ evs)%list
    ∧ Forall row_event evs.
Proof.
  intros Hl Hr.
  destruct (create_users_from_csv_trace s path session w1 rows pending w2
              Hl Hr) as (s' & evs & Hrun & Ht & Hev & _ & _).
  exists evs. rewrite Hrun. by split.
Qed.

(** X13: an error of the file is not caught.  When the file cannot be
    opened, or the reader fails before the end, the importer raises that
    exception, after the login and after the rows read so far; for a file
    that cannot be opened that means no line and no request. *)
Theorem read_error_aborts s path session w1 rows exc w2 :
  login E (world s) = (inr session, w1) →
  DictReader E path w1 = ((rows, Some exc), w2) →
  (create_users_from_csv E path s).1 = Raise (Exception exc)
  ∧ (rows = [] →
     create_users_from_csv E path s =
     (Raise (Exception exc),
      mkState w2
        (heap s ++
         [Instance (Some (client_url E "/services/data/v50.0/sobjects/User"))
            (Some (S (length (heap s))));
          Dict (client_headers (headers session))])
        (trace s ++ [login_event E; EvOpen path]))).
Proof.
  intros Hl Hr. split.
  - destruct (create_users_from_csv_trace s path session w1 rows (Some exc) w2
                Hl Hr) as (s' & evs & Hrun & _).
    by rewrite Hrun.
  - intros ->. unfold create_users_from_csv.
    erewrite bind_Ok by (by apply SalesforceRestApiClient_run).
    erewrite bind_Ok; [|unfold open_DictReader; simpl; by rewrite Hr].
    cbn [fst snd for_each]. erewrite bind_Ok by reflexivity.
    unfold raise. by rewrite <- app_assoc.
Qed.

(** X14: an empty file (a header and no row, or nothing at all) is a
    normal run: the importer logs in, opens the file, prints nothing,
    sends nothing and returns. *)
Theorem empty_file_is_a_normal_run s path session w1 w2 :
  login E (world s) = (inr session, w1) →
  DictReader E path w1 = (([], None), w2) →
  (create_users_from_csv E path s).1 = Ok tt
  ∧ world (create_users_from_csv E path s).2 = w2
  ∧ trace (create_users_from_csv E path s).2
    = (trace s ++ [login_event E; EvOpen path])%list.
Proof.
  intros Hl Hr. unfold create_users_from_csv.
  erewrite bind_Ok by (by apply SalesforceRestApiClient_run).
  erewrite bind_Ok; [|unfold open_DictReader; simpl; by rewrite Hr].
  cbn [fst snd for_each]. erewrite bind_Ok by reflexivity.
  unfold ret. simpl. by rewrite <- app_assoc.
Qed.

(** X15: for a row with every required column the [except] clause is out
    of reach: exactly one line is printed and it is the success line,
    showing either the answer of the API, whose status is then outside
    400..599, or the synthetic status-500 response, which also stands for
    a request that never left or a transport that failed. *)
Theorem complete_row_always_reported_as_success s sf u b d row :
  client_at E s sf u b d →
  complete row →
  let req :=
    mkRequest "POST" u d DEFAULT_TIMEOUT_SECONDS
      {[ "data" := PStr (json_dumps (PDict (user_record row))) ]} in
  ∃ r,
    prints_of (trace (create_user E sf row s).2)
    = (prints_of (trace s) ++ [success_line row r])%list
    ∧ match requests_request E req (world s) with
      | (inr resp, _) =>
        if bool_decide (400 ≤ status_code resp < 600)%Z
        then r = error_response else r = resp
      | (inl _, _) => r = error_response
      end.
Proof.
  intros Hc Hrow req.
  rewrite (create_user_complete s sf u b d row Hc Hrow). cbv zeta. fold req.
  exists (attempt E u req (world s)).1.1. cbn [snd trace]. split.
  - rewrite prints_of_app, prints_of_log, prints_of_app.
    by rewrite (proj2 (attempt_events u req (world s))).
  - unfold attempt, req. cbn [req_kwargs].
    rewrite (proj2 (data_keywords (json_dumps (PDict (user_record row))))).
    destruct (requests_request E _ (world s)) as [[exc|resp] w]; [done|].
    case_bool_decide as Hst.
    + destruct (raise_for_status resp) eqn:Hr; [done|].
      apply raise_for_status_None in Hr. lia.
    + apply raise_for_status_None in Hst. by rewrite Hst.
Qed.

(** ** main *)

(** The runs of [main], by what the world answers. *)
Lemma main_run s :
  main E s =
  match new_Settings E (world s) with
  | (inl exc, w) => (Raise (Exception exc), mkState w (heap s) (trace s))
  | (inr _, w0) =>
    let t1 := (trace s ++ [EvPrint ("実行環境: " ++ Config_env E)])%list in
    if String.eqb (Config_env E) "prod" then
      match console_input E confirm_prompt w0 with
      | (inl exc, w1) =>
        (Raise (Exception exc),
         mkState w1 (heap s) (t1 ++ [EvInput confirm_prompt]))
      | (inr confirm, w1) =>
        if bool_decide (lower confirm ∈ ["yes"; "y"]) then
          create_users_from_csv E users_csv
            (mkState w1 (heap s)
               (t1 ++ [EvInput confirm_prompt;
                       EvPrint "====== 処理開始 ======"]))
        else
          (Raise (SystemExit 1),
           mkState w1 (heap s)
             (t1 ++ [EvInput confirm_prompt;
                     EvPrint "====== 処理中断 ====== "]))
      end
    else
      create_users_from_csv E users_csv
        (mkState w0 (heap s) (t1 ++ [EvPrint "====== 処理開始 ======"]))
  end.
Proof.
  unfold main.
  destruct (new_Settings E (world s)) as [[exc|st] w0] eqn:Hst.
  { erewrite bind_Raise; [done|]. unfold Settings_. by rewrite Hst. }
  erewrite bind_Ok; [|unfold Settings_; by rewrite Hst].
  erewrite bind_Ok by reflexivity. cbv zeta.
  destruct (String.eqb (Config_env E) "prod").
  - destruct (console_input E confirm_prompt w0) as [[exc|confirm] w1] eqn:Hin.
    + erewrite bind_Raise; [done|]. erewrite bind_Raise; [done|].
      unfold call. simpl. by rewrite Hin.
    + case_bool_decide as Hans; cbn [negb].
      * erewrite bind_Ok; cycle 1.
        { erewrite bind_Ok; [|unfold call; simpl; by rewrite Hin].
          rewrite bool_decide_eq_true_2 by done. reflexivity. }
        erewrite bind_Ok by reflexivity. simpl. by rewrite <- !app_assoc.
      * erewrite bind_Raise; [done|].
        erewrite bind_Ok; [|unfold call; simpl; by rewrite Hin].
        rewrite bool_decide_eq_false_2 by done. cbn [negb].
        erewrite bind_Ok by reflexivity. unfold sys_exit, raise. simpl.
        by rewrite <- !app_assoc.
  - erewrite bind_Ok by reflexivity. erewrite bind_Ok by reflexivity.
    reflexivity.
Qed.

Lemma Config_env_prod : Config_env E = "prod" ↔ ENV E = Some "prod".
Proof.
  unfold Config_env. destruct (ENV E) as [env|]; simpl; split; congruence.
Qed.

(** X16: when [Settings()] fails, for a missing setting say, [main] raises
    that error before it prints anything: no prompt, no login, no file. *)
Theorem settings_error_aborts_main s exc w :
  new_Settings E (world s) = (inl exc, w) →
  main E s = (Raise (Exception exc), mkState w (heap s) (trace s)).
Proof. intros Hst. by rewrite main_run, Hst. Qed.

(** X17: in production, when the console cannot be read (standard input
    is closed, say) the exception of [input] leaves [main]: the importer
    does not run, and nothing is printed after the environment name. *)
Theorem console_error_aborts_main s st w0 exc w1 :
  new_Settings E (world s) = (inr st, w0) →
  ENV E = Some "prod" →
  console_input E confirm_prompt w0 = (inl exc, w1) →
  main E s =
  (Raise (Exception exc),
   mkState w1 (heap s)
     (trace s ++ [EvPrint "実行環境: prod"; EvInput confirm_prompt])).
Proof.
  intros Hst Henv Hin. apply Config_env_prod in Henv.
  rewrite main_run, Hst, Henv. cbv zeta.
  cbn [String.eqb Ascii.eqb Bool.eqb]. rewrite Hin.
  by rewrite <- app_assoc.
Qed.

(** X18: the environment is production only when the variable [ENV] is
    exactly [prod]; unset, it is [dev].  In any other environment [main]
    never reads the console: it prints the two banner lines and runs the
    importer on the fixed file. *)
Theorem no_prompt_outside_production s st w0 :
  new_Settings E (world s) = (inr st, w0) →
  ENV E ≠ Some "prod" →
  (ENV E = None → Config_env E = "dev")
  ∧ main E s =
    create_users_from_csv E users_csv
      (mkState w0 (heap s)
         (trace s ++ [EvPrint ("実行環境: " ++ Config_env E);
                      EvPrint "====== 処理開始 ======"])).
Proof.
  intros Hst Henv. split; [by unfold Config_env; intros ->|].
  rewrite main_run, Hst. cbv zeta.
  rewrite <- Config_env_prod in Henv. apply String.eqb_neq in Henv.
  rewrite Henv. by rewrite <- app_assoc.
Qed.

Lemma lower_ascii_cases (c a : ascii) :
  lower_ascii a = c →
  (97 ≤ nat_of_ascii c ≤ 122)%nat →
  a = c ∨ a = ascii_of_nat (nat_of_ascii c - 32).
Proof.
  intros <- Hc. unfold lower_ascii in *.
  destruct ((65 <=? nat_of_ascii a)%nat && (nat_of_ascii a <=? 90)%nat)
    eqn:Hup.
  - right. apply andb_prop in Hup as [H1 H2].
    apply Nat.leb_le in H1, H2.
    rewrite nat_ascii_embedding by lia.
    replace (nat_of_ascii a + 32 - 32) with (nat_of_ascii a) by lia.
    by rewrite ascii_nat_embedding.
  - by left.
Qed.

Lemma lower_ascii_letter (c a : ascii) :
  (97 ≤ nat_of_ascii c ≤ 122)%nat →
  lower_ascii a = c →
  a = c ∨ a = ascii_of_nat (nat_of_ascii c - 32).
Proof. intros Hc Ha. by apply lower_ascii_cases. Qed.

Ltac decide_closed := apply (bool_decide_unpack _); vm_compute; exact I.

Lemma lower_yes_or_y (confirm : string) :
  lower confirm ∈ ["yes"; "y"] ↔ confirm ∈ accepted_answers.
Proof.
  assert (Hy : (97 ≤ nat_of_ascii "y" ≤ 122)%nat) by (vm_compute; lia).
  assert (He : (97 ≤ nat_of_ascii "e" ≤ 122)%nat) by (vm_compute; lia).
  assert (Hs : (97 ≤ nat_of_ascii "s" ≤ 122)%nat) by (vm_compute; lia).
  split.
  - intros Hin. apply elem_of_cons in Hin as [H|Hin].
    + destruct confirm as [|a [|a0 [|a1 [|]]]]; try discriminate H.
      cbn [lower] in H. injection H as Ha Ha0 Ha1.
      destruct (lower_ascii_letter _ _ Hy Ha) as [-> | ->];
        destruct (lower_ascii_letter _ _ He Ha0) as [-> | ->];
        destruct (lower_ascii_letter _ _ Hs Ha1) as [-> | ->];
        decide_closed.
    + apply list_elem_of_singleton in Hin as H.
      destruct confirm as [|a [|]]; try discriminate H.
      cbn [lower] in H. injection H as Ha.
      destruct (lower_ascii_letter _ _ Hy Ha) as [-> | ->]; decide_closed.
  - intros Hin. unfold accepted_answers in Hin.
    repeat (apply elem_of_cons in Hin as [->|Hin]; [decide_closed|]).
    by apply elem_of_nil in Hin.
Qed.

(** X19: in production the run goes on for exactly ten answers: [y], [Y]
    and the eight spellings of [yes] in small and capital letters.  Any
    other answer, [yes] followed by a space or the empty answer for
    instance, ends [main] with exit status 1 before the importer runs. *)
Theorem production_answers s st w0 confirm w1 :
  new_Settings E (world s) = (inr st, w0) →
  ENV E = Some "prod" →
  console_input E confirm_prompt w0 = (inr confirm, w1) →
  let t1 := (trace s ++ [EvPrint "実行環境: prod";
                         EvInput confirm_prompt])%list in
  (confirm ∈ accepted_answers →
   main E s =
   create_users_from_csv E users_csv
     (mkState w1 (heap s) (t1 ++ [EvPrint "====== 処理開始 ======"])))
  ∧ (confirm ∉ accepted_answers →
     main E s =
     (Raise (SystemExit 1),
      mkState w1 (heap s) (t1 ++ [EvPrint "====== 処理中断 ====== "]))).
Proof.
  intros Hst Henv Hin t1. subst t1. apply Config_env_prod in Henv.
  rewrite main_run, Hst, Henv. cbv zeta.
  cbn [String.eqb Ascii.eqb Bool.eqb]. rewrite Hin.
  split; intros Hans; rewrite <- lower_yes_or_y in Hans.
  - rewrite bool_decide_eq_true_2 by done. by rewrite <- !app_assoc.
  - rewrite bool_decide_eq_false_2 by done. by rewrite <- !app_assoc.
Qed.

(** The importer returns or raises an [Exception], never a [SystemExit]. *)
Lemma create_users_from_csv_result s path :
  (create_users_from_csv E path s).1 = Ok tt
  ∨ ∃ exc, (create_users_from_csv E path s).1 = Raise (Exception exc).
Proof.
  destruct (login E (world s)) as [[exc|session] w1] eqn:Hl.
  - right. exists exc. unfold create_users_from_csv.
    by erewrite bind_Raise by (by apply SalesforceRestApiClient_fails).
  - destruct (DictReader E path w1) as [[rows pending] w2] eqn:Hr.
    destruct (create_users_from_csv_trace s path session w1 rows pending w2
                Hl Hr) as (s' & evs & Hrun & _).
    rewrite Hrun. destruct pending as [exc|]; [right; by exists exc|by left].
Qed.

(** X20: [main] ends in a [SystemExit] in one way only: the production
    prompt was answered with something else than the ten accepted
    answers.  The status is then 1 and no request has been made. *)
Theorem exit_only_on_declined_prompt s code :
  (main E s).1 = Raise (SystemExit code) →
  code = 1%Z
  ∧ ENV E = Some "prod"
  ∧ requests_of (trace (main E s).2) = requests_of (trace s)
  ∧ ∃ st w0 confirm w1,
      new_Settings E (world s) = (inr st, w0)
      ∧ console_input E confirm_prompt w0 = (inr confirm, w1)
      ∧ confirm ∉ accepted_answers.
Proof.
  rewrite main_run.
  destruct (new_Settings E (world s)) as [[exc|st] w0] eqn:Hst; [done|].
  cbv zeta.
  destruct (String.eqb (Config_env E) "prod") eqn:Hprod; cycle 1.
  { intros Hexit.
    match type of Hexit with
    | (create_users_from_csv E users_csv ?s1).1 = _ =>
      destruct (create_users_from_csv_result s1 users_csv) as [H|[exc H]];
        congruence
    end. }
  apply String.eqb_eq, Config_env_prod in Hprod.
  destruct (console_input E confirm_prompt w0) as [[exc|confirm] w1] eqn:Hin;
    [done|].
  case_bool_decide as Hans.
  { intros Hexit.
    match type of Hexit with
    | (create_users_from_csv E users_csv ?s1).1 = _ =>
      destruct (create_users_from_csv_result s1 users_csv) as [H|[exc H]];
        congruence
    end. }
  intros [= <-]. split; [done|]. split; [done|]. split.
  - cbn [snd trace]. rewrite !requests_of_app. simpl. by rewrite ?app_nil_r.
  - exists st, w0, confirm, w1. split; [done|]. split; [done|].
    by rewrite <- lower_yes_or_y.
Qed.

(** ** The JSON bodies *)

Ltac closed_printable := vm_compute; repeat split; lia.

Lemma append_String (a : ascii) (s1 s2 : string) :
  String a s1 ++ s2 = String a (s1 ++ s2).
Proof. reflexivity. Qed.

Lemma printable_app (s1 s2 : string) :
  printable (s1 ++ s2) ↔ printable s1 ∧ printable s2.
Proof.
  induction s1 as [|a s1 IH]; [simpl; tauto|].
  rewrite append_String. simpl. tauto.
Qed.

Lemma pretty_N_char_printable (x : N) :
  (32 ≤ nat_of_ascii (pretty_N_char x) ≤ 126)%nat.
Proof. unfold pretty_N_char. repeat case_match; vm_compute; lia. Qed.

Lemma pretty_N_go_printable (x : N) (s : string) :
  printable s → printable (pretty_N_go x s).
Proof.
  revert s. induction (N.lt_wf_0 x) as [x _ IH]; intros s Hs.
  assert (x = 0 ∨ 0 < x)%N as [->|Hx] by lia; [done|].
  rewrite pretty_N_go_step by done. apply IH; [by apply N.div_lt|].
  split; [apply pretty_N_char_printable|done].
Qed.

Lemma pretty_N_printable (x : N) : printable (pretty x).
Proof.
  unfold pretty, pretty_N. case_decide; [closed_printable|].
  by apply pretty_N_go_printable.
Qed.

Lemma pretty_Z_printable (z : Z) : printable (pretty z).
Proof.
  unfold pretty, pretty_Z. destruct z as [|p|p].
  - closed_printable.
  - apply pretty_N_printable.
  - apply printable_app. split; [closed_printable|apply pretty_N_printable].
Qed.

Lemma hex_digit_printable (n : N) :
  (32 ≤ nat_of_ascii (hex_digit (N.land n 15)) ≤ 126)%nat.
Proof.
  assert (N.land n 15 < 16)%N as Hlt.
  { change 15%N with (N.ones 4). rewrite N.land_ones.
    by apply N.mod_lt. }
  unfold hex_digit, nat_of_ascii.
  destruct (N.ltb_spec (N.land n 15) 10);
    rewrite N_ascii_embedding by lia; lia.
Qed.

Lemma u_escape_printable (n : N) : printable (u_escape n).
Proof.
  unfold u_escape. apply printable_app. split; [closed_printable|].
  apply printable_app. split; [closed_printable|].
  repeat split; apply hex_digit_printable.
Qed.

Lemma escape_code_point_printable (n : N) : printable (escape_code_point n).
Proof.
  unfold escape_code_point.
  repeat (case_match; [closed_printable|]).
  case_match eqn:Hrange.
  - apply andb_prop in Hrange as [Hlo Hhi].
    apply N.leb_le in Hlo, Hhi. split; [|done].
    unfold nat_of_ascii. rewrite N_ascii_embedding by lia. lia.
  - case_match; [apply u_escape_printable|].
    apply printable_app. split; apply u_escape_printable.
Qed.

Lemma concat_empty_cons (x : string) (l : list string) :
  String.concat "" (x :: l) = x ++ String.concat "" l.
Proof.
  destruct l as [|y l]; [|done]. cbn [String.concat].
  induction x as [|a x IH]; [done|]. rewrite append_String. by f_equal.
Qed.

Lemma encode_basestring_ascii_printable (s : string) :
  printable (encode_basestring_ascii s).
Proof.
  unfold encode_basestring_ascii.
  apply printable_app. split; [closed_printable|].
  apply printable_app. split; [|closed_printable].
  induction (code_points s) as [|n l IH]; [done|].
  cbn [map]. rewrite concat_empty_cons. apply printable_app.
  split; [apply escape_code_point_printable|done].
Qed.

(** Induction on Python values, with the hypothesis for every element of a
    list and every value of a dict. *)
Lemma pyval_nested_ind (P : pyval → Prop) :
  P PNone →
  (∀ x : bool, P (PBool x)) →
  (∀ z : Z, P (PInt z)) →
  (∀ x : string, P (PStr x)) →
  (∀ l, Forall P l → P (PList l)) →
  (∀ kv, Forall (λ p, P p.2) kv → P (PDict kv)) →
  ∀ v, P v.
Proof.
  intros HNone HBool HInt HStr HList HDict. fix IH 1. intros [| | | |l|kv].
  - exact HNone.
  - apply HBool.
  - apply HInt.
  - apply HStr.
  - apply HList. induction l as [|x l IHl]; constructor; [apply IH|exact IHl].
  - apply HDict.
    induction kv as [|[k x] kv IHkv]; constructor; [apply IH|exact IHkv].
Qed.

(** X21: [json.dumps] gives printable ASCII only, whatever the value: a
    character outside that range is written as an escape.  So the number
    of characters of a body, which [composite_request] puts in
    [Content-Length], is its number of bytes. *)
Theorem json_dumps_printable (v : pyval) : printable (json_dumps v).
Proof.
  induction v as [|b|z|s|l IH|kv IH] using pyval_nested_ind.
  - closed_printable.
  - destruct b; closed_printable.
  - apply pretty_Z_printable.
  - apply encode_basestring_ascii_printable.
  - cbn [json_dumps]. apply printable_app. split; [closed_printable|].
    apply printable_app. split; [|closed_printable].
    induction IH as [|x l Hx _ IHl]; [done|].
    destruct l as [|y l]; [done|].
    apply printable_app. split; [done|].
    apply printable_app. split; [closed_printable|done].
  - cbn [json_dumps]. apply printable_app. split; [closed_printable|].
    apply printable_app. split; [|closed_printable].
    induction IH as [|[k x] kv Hx _ IHkv]; [done|].
    destruct kv as [|y kv].
    + apply printable_app. split; [apply encode_basestring_ascii_printable|].
      apply printable_app. split; [closed_printable|done].
    + apply printable_app. split; [apply encode_basestring_ascii_printable|].
      apply printable_app. split; [closed_printable|].
      apply printable_app. split; [done|].
      apply printable_app. split; [closed_printable|done].
Qed.

Lemma plain_char_escape (a : ascii) :
  plain_char a →
  (N_of_ascii a <? 128)%N = true
  ∧ escape_code_point (N_of_ascii a) = String a EmptyString.
Proof.
  intros H.
  destruct a as [[] [] [] [] [] [] [] []];
    vm_compute in H; (split; [reflexivity|reflexivity]) || lia.
Qed.

Lemma plain_concat (s : string) :
  plain s → String.concat "" (map escape_code_point (code_points s)) = s.
Proof.
  induction s as [|a s IH]; [done|]. intros [Ha Hs].
  destruct (plain_char_escape a Ha) as [Hlt Hesc].
  cbn [code_points]. cbv zeta. rewrite Hlt. cbn [map].
  rewrite concat_empty_cons, Hesc, IH by done. reflexivity.
Qed.

(** X22: a string of printable ASCII characters without double quote and
    backslash, a column name or an e-mail address for instance, goes into
    the JSON body as it is, between double quotes. *)
Theorem plain_strings_are_dumped_verbatim (s : string) :
  plain s → json_dumps (PStr s) = dquote ++ s ++ dquote.
Proof.
  intros Hs. cbn [json_dumps]. unfold encode_basestring_ascii.
  by rewrite plain_concat.
Qed.

(** ** The column a failure names *)

Lemma dict_display_first_missing s row (keys : list string) :
  ¬ Forall (λ k, is_Some (row !! k)) keys →
  ∃ present k rest,
    keys = (present ++ k :: rest)%list
    ∧ Forall (λ k, is_Some (row !! k)) present
    ∧ row !! k = None
    ∧ dict_display E row keys s = (Raise (Exception (KeyError k)), s).
Proof.
  induction keys as [|k keys IH]; intros Hn.
  - by destruct Hn.
  - destruct (row !! k) as [v|] eqn:Hk.
    + destruct IH as (present & k' & rest & -> & Hp & Hk' & Hrun).
      { intros Hall. apply Hn. constructor; [by rewrite Hk|done]. }
      exists (k :: present), k', rest. split; [done|].
      split; [constructor; [by rewrite Hk|done]|]. split; [done|].
      cbn [dict_display].
      erewrite bind_Ok; [|unfold subscript; by rewrite Hk].
      by erewrite bind_Raise.
    + exists [], k, keys. split; [done|]. split; [done|]. split; [done|].
      cbn [dict_display].
      erewrite bind_Raise; [done|]. unfold subscript. by rewrite Hk.
Qed.

(** X23: when a row lacks several required columns the failure line names
    one of them only: the first in the order of the user record
    (FirstName, LastName, Email, Username, ...).  The columns before it are
    all there, and the other missing ones go unreported. *)
Theorem failure_names_first_missing_column s sf row :
  ¬ complete row →
  ∃ present k rest,
    required_columns = (present ++ k :: rest)%list
    ∧ Forall (λ k, is_Some (row !! k)) present
    ∧ row !! k = None
    ∧ prints_of (trace (create_user E sf row s).2) =
      (prints_of (trace s)
       ++ [("Failed to create user: "
            ++ match row !! "Username" with
               | Some name => str_opt name
               | None => "No Username"
               end
            ++ " -> '" ++ k ++ "'")%string])%list.
Proof.
  intros Hn.
  destruct (dict_display_first_missing s row required_columns Hn)
    as (present & k & rest & Hcols & Hp & Hk & Hrun).
  exists present, k, rest. split; [done|]. split; [done|]. split; [done|].
  unfold create_user.
  erewrite try_except_Exception; cycle 1.
  { by erewrite bind_Raise. }
  unfold print, emit, row_get. cbn [snd trace].
  rewrite prints_of_app. by destruct (row !! "Username").
Qed.

End Properties.

(** * The properties at work in the example worlds *)

Ltac by_computation := apply (bool_decide_unpack _); vm_compute; exact I.

(** The API answers 400 to the create call for alice: the line printed for
    her row is the success line with the synthetic response. *)
Lemma api_error_reported_as_success_witness :
  let E := world_api_error in
  let row := example_row "alice@example.com" in
  complete row
  ∧ (create_user E 0 row (constructed E 0)).1 = Ok tt
  ∧ prints_of (trace (create_user E 0 row (constructed E 0)).2) =
    ["Successfully created user: alice@example.com -> <Response [500]>"].
Proof.
  cbv zeta. split; [by_computation|].
  eapply (api_error_reported_as_success world_api_error
           (constructed world_api_error 0) 0 example_url 1
           example_base_headers (example_row "alice@example.com")).
  - split; reflexivity.
  - by_computation.
  - reflexivity.
  - simpl. lia.
Defined.

(** The whole batch of that world: two success lines, the first for the
    user the API refused. *)
Example api_error_batch :
  let run :=
    create_users_from_csv world_api_error users_csv
      (initial world_api_error 0) in
  run.1 = Ok tt
  ∧ prints_of (trace run.2) =
    ["Successfully created user: alice@example.com -> <Response [500]>";
     "Successfully created user: bob@example.com -> <Response [201]>"]
  ∧ map req_method (requests_of (trace run.2)) = ["POST"; "POST"].
Proof. cbv zeta. repeat split; vm_compute; reflexivity. Qed.

(** The composite request of the example client: the world still counts no
    request afterwards. *)
Lemma composite_request_never_sent_witness :
  let E := world_api_error in
  let run := composite_request E 0 (PDict [("a", PInt 1)]) (constructed E 0) in
  client_at E (constructed E 0) 0 example_url 1 example_base_headers
  ∧ run.1 = Ok error_response
  ∧ world run.2 = 0
  ∧ requests_of (trace run.2) = [].
Proof.
  cbv zeta.
  assert (Hc : client_at world_api_error (constructed world_api_error 0) 0
                 example_url 1 example_base_headers)
    by (split; reflexivity).
  split; [exact Hc|].
  rewrite (composite_request_never_sent world_api_error _ _ _ _ _ Hc).
  repeat split.
Defined.

(** The API answers 400: [send_request] returns the synthetic response. *)
Lemma send_request_never_raises_witness :
  let E := world_api_error in
  client_at E (constructed E 0) 0 example_url 1 example_base_headers
  ∧ (send_request E 0 "GET" None DEFAULT_TIMEOUT_SECONDS ∅ (constructed E 0)).1
    = Ok error_response.
Proof.
  cbv zeta.
  assert (Hc : client_at world_api_error (constructed world_api_error 0) 0
                 example_url 1 example_base_headers)
    by (split; reflexivity).
  split; [exact Hc|].
  destruct (send_request_never_raises world_api_error _ _ _ _ _
              "GET" None DEFAULT_TIMEOUT_SECONDS ∅ Hc) as (_ & _ & H & _).
  eapply H; [reflexivity|]. simpl. lia.
Defined.

(** Two complete rows: two requests, alice's first. *)
Lemma one_create_call_per_row_witness :
  let E := world_api_error in
  let rows := [example_row "alice@example.com";
               example_row "bob@example.com"] in
  Forall complete rows
  ∧ requests_of (trace (create_users_from_csv E users_csv (initial E 0)).2)
    = map (create_request E (headers example_session)) rows.
Proof.
  cbv zeta. split; [by_computation|].
  assert (Hrows : Forall complete [example_row "alice@example.com";
                                    example_row "bob@example.com"])
    by by_computation.
  exact (one_create_call_per_row world_api_error (initial world_api_error 0)
           users_csv example_session 0 _ None 0 eq_refl eq_refl Hrows).
Defined.

(** No row of the file has an [Email]: the failure line for bob stands
    between alice's events and carol's, and the importer returns. *)
Lemma missing_column_reported_witness :
  let E := world_missing_column in
  let row := delete "Email" (example_row "bob@example.com") in
  let run := create_users_from_csv E users_csv (initial E 0) in
  ¬ complete row
  ∧ run.1 = Ok tt
  ∧ ∃ k evs_before evs_after,
      trace run.2 =
      ([login_event E; EvOpen users_csv] ++ evs_before
       ++ [EvPrint ("Failed to create user: bob@example.com -> '"
                    ++ k ++ "'")]
       ++ evs_after)%list
      ∧ length (prints_of evs_before) = 1
      ∧ length (prints_of evs_after) = 1.
Proof.
  cbv zeta.
  assert (Hn : ¬ complete (delete "Email" (example_row "bob@example.com")))
    by by_computation.
  split; [exact Hn|].
  destruct (missing_column_reported world_missing_column
              (initial world_missing_column 0) users_csv example_session 0
              [delete "Email" (example_row "alice@example.com")]
              (delete "Email" (example_row "bob@example.com"))
              [delete "Email" (example_row "carol@example.com")]
              None 0 eq_refl eq_refl Hn)
    as (k & evs1 & evs3 & _ & _ & Ht & Hp1 & _ & Hp3 & _ & Hok).
  split; [exact (Hok eq_refl)|].
  exists k, evs1, evs3. split; [exact Ht|]. split; [exact Hp1|exact Hp3].
Defined.

(** The whole batch of that world: a failure line per row, naming the
    column, and no request. *)
Example missing_column_batch :
  let run :=
    create_users_from_csv world_missing_column users_csv
      (initial world_missing_column 0) in
  run.1 = Ok tt
  ∧ prints_of (trace run.2) =
    ["Failed to create user: alice@example.com -> 'Email'";
     "Failed to create user: bob@example.com -> 'Email'";
     "Failed to create user: carol@example.com -> 'Email'"]
  ∧ requests_of (trace run.2) = [].
Proof. cbv zeta. repeat split; vm_compute; reflexivity. Qed.

(** The login is refused: the importer raises, and the trace holds the
    login alone. *)
Lemma authentication_failure_aborts_witness :
  let E := world_login_refused in
  login E 0 = (inl (SalesforceAuthenticationFailed "INVALID_LOGIN"), 0)
  ∧ ∃ h, create_users_from_csv E users_csv (initial E 0) =
         (Raise (Exception (SalesforceAuthenticationFailed "INVALID_LOGIN")),
          mkState (E:=E) 0 h [login_event E]).
Proof.
  cbv zeta. split; [reflexivity|].
  apply (authentication_failure_aborts world_login_refused
           (initial world_login_refused 0) users_csv).
  reflexivity.
Defined.

(** The operator answers [no] to the production prompt: exit status 1. *)
Lemma main_confirmation_witness :
  let E := world_prod_declined in
  Config_env E = "prod"
  ∧ (lower "no" ∉ ["yes"; "y"])
  ∧ main E (initial E 0) =
    (Raise (SystemExit 1),
     mkState (E:=E) 0 []
       [EvPrint "実行環境: prod"; EvInput confirm_prompt;
        EvPrint "====== 処理中断 ====== "]).
Proof.
  cbv zeta.
  assert (Hno : lower "no" ∉ ["yes"; "y"]) by by_computation.
  split; [reflexivity|]. split; [exact Hno|].
  destruct (main_confirmation world_prod_declined
              (initial world_prod_declined 0) example_settings 0)
    as [H _]; [reflexivity|].
  destruct (H eq_refl "no" 0 eq_refl) as [Hexit _].
  exact (Hexit Hno).
Defined.

(** A web page instead of JSON: the fallback mapping carries the page. *)
Lemma parse_json_body_fallback_witness :
  parse_json_body html_response
  = inr (PDict [("message", PStr "response.json() failed");
                ("response", PStr "<html></html>")]).
Proof.
  destruct (parse_json_body_fallback html_response) as [H _].
  exact (H _ eq_refl).
Defined.

(** C8, as stated, fails: the message of the fallback mapping is not
    ["decode failed"]. *)
Lemma parse_json_body_message_counterexample :
  ¬ (∀ response msg,
       json response = inl (JSONDecodeError msg) →
       parse_json_body response
       = inr (PDict [("message", PStr "decode failed");
                     ("response", PStr (text response))])).
Proof.
  intros H. specialize (H html_response _ eq_refl). discriminate H.
Qed.

(** The example client is the same after a POST that the API refuses. *)
Lemma client_read_only_witness :
  let E := world_api_error in
  client_at E (constructed E 0) 0 example_url 1 example_base_headers
  ∧ client_at E
      (post E 0 (Some {[ "Accept" := "text/plain" ]}) None ∅
         (constructed E 0)).2
      0 example_url 1 example_base_headers.
Proof.
  cbv zeta.
  assert (Hc : client_at world_api_error (constructed world_api_error 0) 0
                 example_url 1 example_base_headers)
    by (split; reflexivity).
  split; [exact Hc|].
  destruct (client_read_only world_api_error _ _ _ _ _ Hc)
    as (_ & _ & H & _).
  apply H.
Defined.

(** The API answers 304: the caller gets that answer. *)
Lemma send_request_below_400_witness :
  let E := world_not_modified in
  let req :=
    mkRequest "GET" example_url example_base_headers DEFAULT_TIMEOUT_SECONDS
      ∅ in
  requests_request E req 0 = (inr (answer 304 req), 1)
  ∧ (send_request E 0 "GET" None DEFAULT_TIMEOUT_SECONDS ∅ (constructed E 0)).1
    = Ok (answer 304 req).
Proof.
  cbv zeta. split; [reflexivity|].
  destruct (send_request_below_400 world_not_modified
              (constructed world_not_modified 0) 0 example_url 1
              example_base_headers "GET" None DEFAULT_TIMEOUT_SECONDS ∅
              (answer 304
                 (mkRequest "GET" example_url example_base_headers
                    DEFAULT_TIMEOUT_SECONDS ∅)) 1) as [H _].
  - split; reflexivity.
  - reflexivity.
  - reflexivity.
  - apply H. simpl. lia.
Defined.

(** * The further properties at work in the example worlds *)

(** A client constructed with its own [Accept] header. *)
Lemma constructor_header_precedence_witness :
  let E := world_api_error in
  let run :=
    SalesforceRestApiClient E "//services/data/v50.0/sobjects/User"
      (Some {[ "Accept" := "text/plain" ]}) (initial E 0) in
  login E 0 = (inr example_session, 0)
  ∧ ∃ self b d,
      run.1 = Ok self
      ∧ client_at E run.2 self example_url b d
      ∧ d !! "Accept" = Some "text/plain"
      ∧ d !! "Authorization" = Some "Bearer 00Dxx0000001gPF"
      ∧ d !! "Content-Type" = Some "application/json".
Proof.
  cbv zeta. split; [reflexivity|].
  destruct (constructor_header_precedence world_api_error
              (initial world_api_error 0)
              "//services/data/v50.0/sobjects/User"
              (Some {[ "Accept" := "text/plain" ]}) example_session 0 eq_refl)
    as (self & b & d & Hrun & Hc & Hextra & Hsession & Hdefault).
  exists self, b, d. split; [exact Hrun|]. split; [exact Hc|].
  split; [by apply Hextra|]. split; [by apply Hsession|].
  by rewrite Hdefault.
Defined.

Lemma send_request_one_request_witness :
  let E := world_api_error in
  let run :=
    send_request E 0 "GET" (Some {[ "Accept" := "text/plain" ]})
      DEFAULT_TIMEOUT_SECONDS ∅ (constructed E 0) in
  client_at E (constructed E 0) 0 example_url 1 example_base_headers
  ∧ requests_of (trace run.2) =
    [mkRequest "GET" example_url
       ({[ "Accept" := "text/plain" ]} ∪ example_base_headers)
       DEFAULT_TIMEOUT_SECONDS ∅].
Proof.
  cbv zeta.
  assert (Hc : client_at world_api_error (constructed world_api_error 0) 0
                 example_url 1 example_base_headers)
    by (split; reflexivity).
  split; [exact Hc|].
  exact (send_request_one_request world_api_error _ _ _ _ _ "GET"
           (Some {[ "Accept" := "text/plain" ]}) DEFAULT_TIMEOUT_SECONDS ∅ Hc).
Defined.


Lemma wrappers_reject_method_keyword_witness :
  let E := world_api_error in
  let kwargs : gmap string pyval := {[ "method" := PStr "DELETE" ]} in
  is_Some (kwargs !! "method")
  ∧ (get E 0 None None kwargs (constructed E 0)).2 = constructed E 0.
Proof.
  cbv zeta.
  assert (Hm : is_Some (({[ "method" := PStr "DELETE" ]}
                          : gmap string pyval) !! "method"))
    by (eexists; reflexivity).
  split; [exact Hm|].
  destruct (wrappers_reject_method_keyword world_api_error
              (constructed world_api_error 0) 0 None None _ Hm) as [H _].
  by rewrite H.
Defined.

Lemma composite_request_always_fails_witness :
  let E := world_api_error in
  let refused :=
    Unserialisable (TypeError "Object of type set is not JSON serializable") in
  client_at E (constructed E 0) 0 example_url 1 example_base_headers
  ∧ (composite_request_object E 0
       (Serialisable (PDict [("allOrNone", PBool true)]))
       (constructed E 0)).1 = Ok error_response
  ∧ composite_request_object E 0 refused (constructed E 0) =
    (Raise (Exception
              (TypeError "Object of type set is not JSON serializable")),
     constructed E 0).
Proof.
  cbv zeta.
  assert (Hc : client_at world_api_error (constructed world_api_error 0) 0
                 example_url 1 example_base_headers)
    by (split; reflexivity).
  split; [exact Hc|]. split.
  - destruct (composite_request_always_fails world_api_error _ _ _ _ _
                (Serialisable (PDict [("allOrNone", PBool true)])) Hc)
      as (_ & _ & H & _).
    exact H.
  - destruct (composite_request_always_fails world_api_error _ _ _ _ _
                (Unserialisable
                   (TypeError "Object of type set is not JSON serializable"))
                Hc) as (_ & _ & H).
    exact H.
Defined.

Lemma send_request_success_path_witness :
  let E := world_not_modified in
  let req :=
    mkRequest "GET" example_url example_base_headers DEFAULT_TIMEOUT_SECONDS
      ∅ in
  let run :=
    send_request E 0 "GET" None DEFAULT_TIMEOUT_SECONDS ∅ (constructed E 0) in
  ¬ (400 ≤ status_code (answer 304 req) < 600)%Z
  ∧ run.1 = Ok (answer 304 req)
  ∧ world run.2 = 1.
Proof.
  cbv zeta.
  assert (Hst : ¬ (400 ≤ status_code
                     (answer 304
                        (mkRequest "GET" example_url example_base_headers
                           DEFAULT_TIMEOUT_SECONDS ∅)) < 600)%Z)
    by (simpl; lia).
  split; [exact Hst|].
  assert (Hk : repeated_keyword ["method"; "url"; "headers"; "timeout"]
                 (∅ : gmap string pyval) = None) by reflexivity.
  destruct (send_request_success_path world_not_modified
              (constructed world_not_modified 0) 0 example_url 1
              example_base_headers "GET" None DEFAULT_TIMEOUT_SECONDS ∅
              _ 1 (conj eq_refl eq_refl) Hk eq_refl Hst)
    as (H1 & H2 & _).
  split; [exact H1|exact H2].
Defined.

Lemma parse_json_body_absorbs_decode_errors_only_witness :
  parse_json_body consumed_response
  = inl (OtherException "RuntimeError"
           "The content for this response was already consumed").
Proof.
  destruct (parse_json_body_absorbs_decode_errors_only consumed_response)
    as [_ H].
  exact (H _ eq_refl eq_refl).
Defined.

Lemma refused_request_parses_to_empty_fallback_witness :
  let E := world_api_error in
  client_at E (constructed E 0) 0 example_url 1 example_base_headers
  ∧ ∃ r,
      (send_request E 0 "GET" None DEFAULT_TIMEOUT_SECONDS ∅
         (constructed E 0)).1 = Ok r
      ∧ parse_json_body r
        = inr (PDict [("message", PStr "response.json() failed");
                      ("response", PStr "")]).
Proof.
  cbv zeta.
  assert (Hc : client_at world_api_error (constructed world_api_error 0) 0
                 example_url 1 example_base_headers)
    by (split; reflexivity).
  split; [exact Hc|].
  eapply (refused_request_parses_to_empty_fallback world_api_error _ _ _ _ _
            "GET" None DEFAULT_TIMEOUT_SECONDS ∅ _ _ Hc eq_refl).
  simpl. lia.
Defined.

Lemma one_line_per_row_witness :
  let E := world_missing_column in
  length (prints_of
            (trace (create_users_from_csv E users_csv (initial E 0)).2))
  = 3.
Proof.
  cbv zeta.
  exact (one_line_per_row world_missing_column
           (initial world_missing_column 0) users_csv example_session 0 _
           None 0 eq_refl eq_refl).
Defined.

Lemma requests_for_complete_rows_only_witness :
  let E := world_missing_column in
  requests_of (trace (create_users_from_csv E users_csv (initial E 0)).2)
  = [].
Proof.
  cbv zeta.
  exact (requests_for_complete_rows_only world_missing_column
           (initial world_missing_column 0) users_csv example_session 0 _
           None 0 eq_refl eq_refl).
Defined.

Lemma one_login_then_one_open_witness :
  let E := world_api_error in
  ∃ evs,
    trace (create_users_from_csv E users_csv (initial E 0)).2
    = ([login_event E; EvOpen users_csv] ++ evs)%list
    ∧ Forall row_event evs.
Proof.
  cbv zeta.
  exact (one_login_then_one_open world_api_error (initial world_api_error 0)
           users_csv example_session 0 _ None 0 eq_refl eq_refl).
Defined.

Lemma read_error_aborts_witness :
  let E := world_no_file in
  (create_users_from_csv E users_csv (initial E 0)).1
  = Raise (Exception (OtherException "FileNotFoundError"
                        "[Errno 2] No such file or directory")).
Proof.
  cbv zeta.
  destruct (read_error_aborts world_no_file (initial world_no_file 0)
              users_csv example_session 0 [] _ 0 eq_refl eq_refl) as [H _].
  exact H.
Defined.

Lemma empty_file_is_a_normal_run_witness :
  let E := world_empty_file in
  let run := create_users_from_csv E users_csv (initial E 0) in
  run.1 = Ok tt ∧ world run.2 = 0
  ∧ trace run.2 = [login_event E; EvOpen users_csv].
Proof.
  cbv zeta.
  exact (empty_file_is_a_normal_run world_empty_file
           (initial world_empty_file 0) users_csv example_session 0 0
           eq_refl eq_refl).
Defined.

Lemma complete_row_always_reported_as_success_witness :
  let E := world_api_error in
  let row := example_row "alice@example.com" in
  complete row
  ∧ prints_of (trace (create_user E 0 row (constructed E 0)).2)
    = [success_line row error_response].
Proof.
  cbv zeta.
  assert (Hrow : complete (example_row "alice@example.com"))
    by by_computation.
  split; [exact Hrow|].
  destruct (complete_row_always_reported_as_success world_api_error
              (constructed world_api_error 0) 0 example_url 1
              example_base_headers _ (conj eq_refl eq_refl) Hrow)
    as (r & Hline & Hr).
  vm_compute in Hr. subst r. exact Hline.
Defined.

Lemma settings_error_aborts_main_witness :
  let E := world_settings_error in
  main E (initial E 0) =
  (Raise (Exception
            (OtherException "ValidationError" "SF_TOKEN: Field required")),
   initial E 0).
Proof.
  cbv zeta.
  exact (settings_error_aborts_main world_settings_error
           (initial world_settings_error 0) _ 0 eq_refl).
Defined.

Lemma console_error_aborts_main_witness :
  let E := world_console_closed in
  main E (initial E 0) =
  (Raise (Exception (OtherException "EOFError" "EOF when reading a line")),
   mkState (E:=E) 0 []
     [EvPrint "実行環境: prod"; EvInput confirm_prompt]).
Proof.
  cbv zeta.
  exact (console_error_aborts_main world_console_closed
           (initial world_console_closed 0) example_settings 0 _ 0
           eq_refl eq_refl eq_refl).
Defined.

Lemma no_prompt_outside_production_witness :
  let E := world_api_error in
  ENV E ≠ Some "prod"
  ∧ main E (initial E 0) =
    create_users_from_csv E users_csv
      (mkState (E:=E) 0 []
         [EvPrint "実行環境: dev"; EvPrint "====== 処理開始 ======"]).
Proof.
  cbv zeta.
  assert (Henv : ENV world_api_error ≠ Some "prod") by discriminate.
  split; [exact Henv|].
  destruct (no_prompt_outside_production world_api_error
              (initial world_api_error 0) example_settings 0 eq_refl Henv)
    as [_ H].
  exact H.
Defined.

Lemma production_answers_witness :
  let E := world_prod_declined in
  ("no" ∉ accepted_answers)
  ∧ main E (initial E 0) =
    (Raise (SystemExit 1),
     mkState (E:=E) 0 []
       [EvPrint "実行環境: prod"; EvInput confirm_prompt;
        EvPrint "====== 処理中断 ====== "]).
Proof.
  cbv zeta.
  assert (Hno : "no" ∉ accepted_answers) by by_computation.
  split; [exact Hno|].
  destruct (production_answers world_prod_declined
              (initial world_prod_declined 0) example_settings 0 "no" 0
              eq_refl eq_refl eq_refl) as [_ H].
  exact (H Hno).
Defined.

Lemma exit_only_on_declined_prompt_witness :
  let E := world_prod_declined in
  (main E (initial E 0)).1 = Raise (SystemExit 1)
  ∧ requests_of (trace (main E (initial E 0)).2) = [].
Proof.
  cbv zeta.
  assert (Hexit : (main world_prod_declined
                     (initial world_prod_declined 0)).1
                  = Raise (SystemExit 1)) by reflexivity.
  split; [exact Hexit|].
  destruct (exit_only_on_declined_prompt world_prod_declined
              (initial world_prod_declined 0) 1 Hexit) as (_ & _ & H & _).
  exact H.
Defined.

Lemma plain_strings_are_dumped_verbatim_witness :
  plain "alice@example.com"
  ∧ json_dumps (PStr "alice@example.com")
    = dquote ++ "alice@example.com" ++ dquote.
Proof.
  assert (Hp : plain "alice@example.com") by (vm_compute; repeat split; lia).
  split; [exact Hp|].
  exact (plain_strings_are_dumped_verbatim "alice@example.com" Hp).
Defined.

Lemma failure_names_first_missing_column_witness :
  let E := world_missing_column in
  let row :=
    delete "LastName" (delete "Email" (example_row "bob@example.com")) in
  ¬ complete row
  ∧ ∃ present k rest,
      required_columns = (present ++ k :: rest)%list
      ∧ Forall (λ k, is_Some (row !! k)) present
      ∧ row !! k = None
      ∧ prints_of (trace (create_user E 0 row (constructed E 0)).2) =
        [("Failed to create user: bob@example.com -> '" ++ k ++ "'")%string].
Proof.
  cbv zeta.
  assert (Hn : ¬ complete (delete "LastName"
                             (delete "Email" (example_row "bob@example.com"))))
    by by_computation.
  split; [exact Hn|].
  exact (failure_names_first_missing_column world_missing_column
           (constructed world_missing_column 0) 0 _ Hn).
Defined.
